(** * Résumé-to-Notion uploaders: field mapping, phone normalisation, upload

    A shallow embedding of the two programs of the repository,

    - [json_notion_webapp.py]: class [NotionUploader] ([test_connection],
      [upload_person], [_build_properties], [_format_phone]) and the batch
      loop of [main];
    - [file to notion.py]: [upload_to_notion], [_build_properties],
      [_format_phone];

    followed by the properties of the specification, each stated over the
    embedded functions. *)

From Stdlib Require Import String Ascii NArith Lia DecimalString.
From stdpp Require Import gmap list.

Local Open Scope N_scope.

(** ** Python strings

    A Python [str] is a sequence of Unicode code points.  Source literals are
    written as UTF-8 text and decoded once, by [u]. *)

Abbreviation pystr := (list N).

Module PyStr.

(** UTF-8 decoding of a byte sequence (well-formed input: the literals of
    the source files). *)
Fixpoint utf8_decode (bs : list N) : pystr :=
  match bs with
  | [] => []
  | b :: r1 =>
    if b <? 0x80 then b :: utf8_decode r1
    else match r1 with
    | [] => [b]
    | b1 :: r2 =>
      if b <? 0xE0 then ((b - 0xC0) * 64 + (b1 - 0x80)) :: utf8_decode r2
      else match r2 with
      | [] => [b]
      | b2 :: r3 =>
        if b <? 0xF0
        then ((b - 0xE0) * 4096 + (b1 - 0x80) * 64 + (b2 - 0x80)) :: utf8_decode r3
        else match r3 with
        | [] => [b]
        | b3 :: r4 =>
          ((b - 0xF0) * 262144 + (b1 - 0x80) * 4096 + (b2 - 0x80) * 64 + (b3 - 0x80))
            :: utf8_decode r4
        end
      end
    end
  end.

Definition u (s : string) : pystr :=
  utf8_decode (List.map N_of_ascii (list_ascii_of_string s)).

Definition in_ranges (tbl : list (N * N)) (c : N) : bool :=
  existsb (fun r => (fst r <=? c) && (c <=? snd r)) tbl.

(** [str.isdigit] on one character: the code points whose Unicode property
    Numeric_Type is Digit or Decimal (Unicode 14.0, the table of CPython
    3.11).  Besides ASCII [0-9] this covers the decimal digits of other
    scripts, full-width digits, superscripts and circled digits. *)
Definition digit_ranges : list (N * N) :=
  [ (0x30, 0x39); (0xB2, 0xB3); (0xB9, 0xB9); (0x660, 0x669); (0x6F0, 0x6F9);
    (0x7C0, 0x7C9); (0x966, 0x96F); (0x9E6, 0x9EF); (0xA66, 0xA6F);
    (0xAE6, 0xAEF); (0xB66, 0xB6F); (0xBE6, 0xBEF); (0xC66, 0xC6F);
    (0xCE6, 0xCEF); (0xD66, 0xD6F); (0xDE6, 0xDEF); (0xE50, 0xE59);
    (0xED0, 0xED9); (0xF20, 0xF29); (0x1040, 0x1049); (0x1090, 0x1099);
    (0x1369, 0x1371); (0x17E0, 0x17E9); (0x1810, 0x1819); (0x1946, 0x194F);
    (0x19D0, 0x19DA); (0x1A80, 0x1A89); (0x1A90, 0x1A99); (0x1B50, 0x1B59);
    (0x1BB0, 0x1BB9); (0x1C40, 0x1C49); (0x1C50, 0x1C59); (0x2070, 0x2070);
    (0x2074, 0x2079); (0x2080, 0x2089); (0x2460, 0x2468); (0x2474, 0x247C);
    (0x2488, 0x2490); (0x24EA, 0x24EA); (0x24F5, 0x24FD); (0x24FF, 0x24FF);
    (0x2776, 0x277E); (0x2780, 0x2788); (0x278A, 0x2792); (0xA620, 0xA629);
    (0xA8D0, 0xA8D9); (0xA900, 0xA909); (0xA9D0, 0xA9D9); (0xA9F0, 0xA9F9);
    (0xAA50, 0xAA59); (0xABF0, 0xABF9); (0xFF10, 0xFF19); (0x104A0, 0x104A9);
    (0x10A40, 0x10A43); (0x10D30, 0x10D39); (0x10E60, 0x10E68);
    (0x11052, 0x1105A); (0x11066, 0x1106F); (0x110F0, 0x110F9);
    (0x11136, 0x1113F); (0x111D0, 0x111D9); (0x112F0, 0x112F9);
    (0x11450, 0x11459); (0x114D0, 0x114D9); (0x11650, 0x11659);
    (0x116C0, 0x116C9); (0x11730, 0x11739); (0x118E0, 0x118E9);
    (0x11950, 0x11959); (0x11C50, 0x11C59); (0x11D50, 0x11D59);
    (0x11DA0, 0x11DA9); (0x16A60, 0x16A69); (0x16AC0, 0x16AC9);
    (0x16B50, 0x16B59); (0x1D7CE, 0x1D7FF); (0x1E140, 0x1E149);
    (0x1E2F0, 0x1E2F9); (0x1E950, 0x1E959); (0x1F100, 0x1F10A);
    (0x1FBF0, 0x1FBF9) ].

Definition isdigit (c : N) : bool := in_ranges digit_ranges c.

(** [str.isdecimal] on one character: the code points of Unicode category
    Nd (Unicode 14.0).  This is the class [\d] of Python's [re] on [str]
    patterns; superscripts and circled digits are digits for [str.isdigit]
    but are not in it. *)
Definition decimal_ranges : list (N * N) :=
  [(0x30, 0x39); (0x660, 0x669); (0x6F0, 0x6F9); (0x7C0, 0x7C9);
    (0x966, 0x96F); (0x9E6, 0x9EF); (0xA66, 0xA6F); (0xAE6, 0xAEF);
    (0xB66, 0xB6F); (0xBE6, 0xBEF); (0xC66, 0xC6F); (0xCE6, 0xCEF);
    (0xD66, 0xD6F); (0xDE6, 0xDEF); (0xE50, 0xE59); (0xED0, 0xED9);
    (0xF20, 0xF29); (0x1040, 0x1049); (0x1090, 0x1099); (0x17E0, 0x17E9);
    (0x1810, 0x1819); (0x1946, 0x194F); (0x19D0, 0x19D9); (0x1A80, 0x1A89);
    (0x1A90, 0x1A99); (0x1B50, 0x1B59); (0x1BB0, 0x1BB9); (0x1C40, 0x1C49);
    (0x1C50, 0x1C59); (0xA620, 0xA629); (0xA8D0, 0xA8D9); (0xA900, 0xA909);
    (0xA9D0, 0xA9D9); (0xA9F0, 0xA9F9); (0xAA50, 0xAA59); (0xABF0, 0xABF9);
    (0xFF10, 0xFF19); (0x104A0, 0x104A9); (0x10D30, 0x10D39);
    (0x11066, 0x1106F); (0x110F0, 0x110F9); (0x11136, 0x1113F);
    (0x111D0, 0x111D9); (0x112F0, 0x112F9); (0x11450, 0x11459);
    (0x114D0, 0x114D9); (0x11650, 0x11659); (0x116C0, 0x116C9);
    (0x11730, 0x11739); (0x118E0, 0x118E9); (0x11950, 0x11959);
    (0x11C50, 0x11C59); (0x11D50, 0x11D59); (0x11DA0, 0x11DA9);
    (0x16A60, 0x16A69); (0x16AC0, 0x16AC9); (0x16B50, 0x16B59);
    (0x1D7CE, 0x1D7FF); (0x1E140, 0x1E149); (0x1E2F0, 0x1E2F9);
    (0x1E950, 0x1E959); (0x1FBF0, 0x1FBF9) ].

Definition isdecimal (c : N) : bool := in_ranges decimal_ranges c.

(** [str.isspace] on one character: what [str.strip()] removes. *)
Definition space_ranges : list (N * N) :=
  [ (0x9, 0xD); (0x1C, 0x20); (0x85, 0x85); (0xA0, 0xA0); (0x1680, 0x1680);
    (0x2000, 0x200A); (0x2028, 0x2029); (0x202F, 0x202F); (0x205F, 0x205F);
    (0x3000, 0x3000) ].

Definition isspace (c : N) : bool := in_ranges space_ranges c.

(** [s.startswith(p)] *)
Fixpoint startswith (p s : pystr) : bool :=
  match p, s with
  | [], _ => true
  | _ :: _, [] => false
  | a :: p', b :: s' => (a =? b) && startswith p' s'
  end.

Fixpoint lstrip (s : pystr) : pystr :=
  match s with
  | [] => []
  | c :: s' => if isspace c then lstrip s' else s
  end.

Definition rstrip (s : pystr) : pystr := rev (lstrip (rev s)).

(** [s.strip()] *)
Definition strip (s : pystr) : pystr := rstrip (lstrip s).

(** [s.split(sep)] for a one-character separator: never the empty list. *)
Fixpoint split (sep : N) (s : pystr) : list pystr :=
  match s with
  | [] => [[]]
  | c :: s' =>
    if c =? sep then [] :: split sep s'
    else match split sep s' with
         | [] => [[c]]
         | w :: ws => (c :: w) :: ws
         end
  end.

(** The slice [s[i:j]] for [0 <= i <= j]. *)
Definition slice (i j : nat) (s : pystr) : pystr := take (j - i) (drop i s).

End PyStr.
Import PyStr.

(** ** Python values, exceptions, results *)

(** A JSON value as the programs observe it.  A raw record maps field keys
    to such values; the programs test a value's truth, take its [str()] and
    store it.  Numbers, booleans, arrays and objects are kept by these two
    observations. *)
Inductive value :=
| PNone
| PStr (s : pystr)
| POther (truth : bool) (text : pystr).

(** [bool(v)] *)
Definition truthy (v : value) : bool :=
  match v with
  | PNone => false
  | PStr [] => false
  | PStr (_ :: _) => true
  | POther b _ => b
  end.

Definition NoneType_text : pystr := Eval vm_compute in u "None".

(** [str(v)] *)
Definition str (v : value) : pystr :=
  match v with
  | PNone => NoneType_text
  | PStr s => s
  | POther _ t => t
  end.

(** [a or b] *)
Definition or_ (a b : value) : value := if truthy a then a else b.

Inductive exn :=
| KeyError (key : pystr)
| TypeError (msg : pystr)
| APIError (msg : pystr).

Definition quote : pystr := Eval vm_compute in u "'".

(** [str(e)]; a [KeyError] prints the [repr] of its key (the keys used here
    hold no quote or escape). *)
Definition str_exn (e : exn) : pystr :=
  match e with
  | KeyError k => quote ++ k ++ quote
  | TypeError m => m
  | APIError m => m
  end.

(** The outcome of a call: a returned value or a raised exception. *)
Inductive result (A : Type) :=
| Ok (a : A)
| Raise (e : exn).
Arguments Ok {A} a.
Arguments Raise {A} e.

#[global] Instance result_ret : MRet result := fun A a => Ok a.
#[global] Instance result_bind : MBind result := fun A B f m =>
  match m with
  | Ok a => f a
  | Raise e => Raise e
  end.

(** [try: body except: handler] *)
Definition try_except {A} (body : result A) (handler : exn -> result A) : result A :=
  match body with
  | Ok a => Ok a
  | Raise e => handler e
  end.

(** [for x in l: s = body(s, x)], stopping at the first exception. *)
Fixpoint for_each {A S} (body : S -> A -> result S) (s : S) (l : list A) : result S :=
  match l with
  | [] => Ok s
  | x :: l' => s' ← body s x; for_each body s' l'
  end.

(** ** Records, schemas, property sets *)

Abbreviation RawRecord := (gmap pystr value).

(** The destination's [properties]: field name to declared kind
    ([db_info['properties'][field]['type']]). *)
Abbreviation Schema := (gmap pystr pystr).

(** The Notion payloads the mappers build. *)
Inductive payload :=
| Title (content : pystr)           (* {"title": [{"text": {"content": s}}]} *)
| Email (v : value)                 (* {"email": v} *)
| PhoneNumber (s : pystr)           (* {"phone_number": s} *)
| RichText (content : pystr)        (* {"rich_text": [{"text": {"content": s}}]} *)
| Select (name : pystr)             (* {"select": {"name": s}} *)
| MultiSelect (names : list pystr). (* {"multi_select": [{"name": s}, ...]} *)

Abbreviation PropertySet := (gmap pystr payload).

(** [d.get(k)] *)
Definition get (d : RawRecord) (k : pystr) : value := default PNone (d !! k).

(** [d[k]] *)
Definition getitem (d : RawRecord) (k : pystr) : result value :=
  match d !! k with
  | Some v => Ok v
  | None => Raise (KeyError k)
  end.

(** [properties[k] = v]: a dictionary store. *)
Definition setitem (properties : PropertySet) (k : pystr) (v : payload) : result PropertySet :=
  Ok (<[k := v]> properties).

Module Key.
Definition name : pystr := Eval vm_compute in u "이름".
Definition email : pystr := Eval vm_compute in u "이메일".
Definition phone : pystr := Eval vm_compute in u "전화번호".
Definition age : pystr := Eval vm_compute in u "나이/탄생연도".
Definition age_paren : pystr := Eval vm_compute in u "나이(탄생연도)".
Definition gender : pystr := Eval vm_compute in u "성별".
Definition career : pystr := Eval vm_compute in u "총경력".
Definition education : pystr := Eval vm_compute in u "최종학력(전공)".
Definition education_school : pystr := Eval vm_compute in u "최종학력(학교-전공)".
Definition employer : pystr := Eval vm_compute in u "최종직장".
Definition duties : pystr := Eval vm_compute in u "직급/주요업무".
Definition skills : pystr := Eval vm_compute in u "핵심역량".
Definition position : pystr := Eval vm_compute in u "포지션".
End Key.

Module Kind.
Definition select : pystr := Eval vm_compute in u "select".
Definition rich_text : pystr := Eval vm_compute in u "rich_text".
Definition multi_select : pystr := Eval vm_compute in u "multi_select".
End Kind.

Definition comma : N := 0x2C.
Definition hyphen : N := 0x2D.
Definition prefix_010 : pystr := Eval vm_compute in u "010".

(** ** The Notion client

    [notion_client.Client]: the two remote operations the programs call,
    over a state [W] of the remote side.  Each call returns or raises. *)
Record Client (W : Type) := mkClient {
  databases_retrieve : W -> pystr -> W * result Schema;
  pages_create : W -> pystr -> PropertySet -> W * result value
}.
Arguments mkClient {W} _ _.
Arguments databases_retrieve {W} _ _ _.
Arguments pages_create {W} _ _ _ _.

(** ** json_notion_webapp.py *)
Module WebApp.

Record NotionUploader (W : Type) := mkUploader {
  notion : Client W;
  database_id : pystr;
  db_info : option Schema
}.
Arguments mkUploader {W} _ _ _.
Arguments notion {W} _.
Arguments database_id {W} _.
Arguments db_info {W} _.

Definition msg_connected : pystr := Eval vm_compute in u "연결 성공!".
Definition msg_connect_failed : pystr := Eval vm_compute in u "연결 실패: ".
Definition msg_no_name : pystr := Eval vm_compute in u "이름이 없는 데이터입니다.".
Definition msg_uploaded : pystr := Eval vm_compute in u "' 업로드 완료".
Definition msg_upload_failed : pystr := Eval vm_compute in u "업로드 실패: ".
Definition msg_not_subscriptable : pystr :=
  Eval vm_compute in u "'NoneType' object is not subscriptable".
Definition mark_ok : pystr := Eval vm_compute in u "✅ ".
Definition mark_fail : pystr := Eval vm_compute in u "❌ ".

(** [test_connection]: the retrieval runs under [try]; either way a pair is
    returned, and on success [self.db_info] is set. *)
Definition test_connection {W} (self : NotionUploader W) (w : W)
    : W * NotionUploader W * result (bool * pystr) :=
  let '(w', retrieved) := databases_retrieve (notion self) w (database_id self) in
  let self' :=
    match retrieved with
    | Ok info => mkUploader (notion self) (database_id self) (Some info)
    | Raise _ => self
    end in
  (w', self',
   try_except (_ ← retrieved; Ok (true, msg_connected))
     (fun e => Ok (false, msg_connect_failed ++ str_exn e))).

(** [get_database_properties] *)
Definition get_database_properties {W} (self : NotionUploader W) : Schema :=
  match db_info self with
  | None => ∅
  | Some props => props
  end.

(** [self.db_info['properties']]: subscripting [None] raises. *)
Definition db_properties {W} (self : NotionUploader W) : result Schema :=
  match db_info self with
  | Some props => Ok props
  | None => Raise (TypeError msg_not_subscriptable)
  end.

Definition _format_phone (phone : value) : pystr :=
  let phone_cleaned := filter (fun c => isdigit c = true) (str phone) in
  if (length phone_cleaned =? 11)%nat && startswith prefix_010 phone_cleaned
  then slice 0 3 phone_cleaned ++ [hyphen] ++ slice 3 7 phone_cleaned
         ++ [hyphen] ++ drop 7 phone_cleaned
  else str phone.

(** Body of [for field, value in select_fields.items()]. *)
Definition select_body {W} (self : NotionUploader W) (properties : PropertySet)
    (item : pystr * value) : result PropertySet :=
  let '(field, v) := item in
  if truthy v then
    props ← db_properties self;
    match props !! field with
    | Some ty =>
      if bool_decide (ty = Kind.select)
      then Ok (<[field := Select (str v)]> properties)
      else Ok properties
    | None => Ok properties
    end
  else Ok properties.

(** Body of [for field, value in rich_text_fields.items()]. *)
Definition rich_text_body {W} (self : NotionUploader W) (properties : PropertySet)
    (item : pystr * value) : result PropertySet :=
  let '(field, v) := item in
  if truthy v then
    props ← db_properties self;
    match props !! field with
    | Some prop_type =>
      if bool_decide (prop_type = Kind.rich_text)
      then Ok (<[field := RichText (str v)]> properties)
      else if bool_decide (prop_type = Kind.multi_select)
              && bool_decide (field = Key.position)
      then
        let values := map strip (split comma (str v)) in
        Ok (<[field := MultiSelect (filter (fun val => val <> []) values)]> properties)
      else Ok properties
    | None => Ok properties
    end
  else Ok properties.

Definition _build_properties {W} (self : NotionUploader W) (person_data : RawRecord)
    : result PropertySet :=
  let properties : PropertySet := ∅ in
  name ← getitem person_data Key.name;
  let properties := <[Key.name := Title (str name)]> properties in
  properties ←
    (if truthy (get person_data Key.email)
     then email ← getitem person_data Key.email;
          Ok (<[Key.email := Email email]> properties)
     else Ok properties);
  properties ←
    (if truthy (get person_data Key.phone)
     then raw ← getitem person_data Key.phone;
          let phone := _format_phone raw in
          try_except (setitem properties Key.phone (PhoneNumber phone))
            (fun _ => setitem properties Key.phone (RichText phone))
     else Ok properties);
  let select_fields :=
    [ (Key.age, or_ (get person_data Key.age_paren) (get person_data Key.age));
      (Key.gender, get person_data Key.gender) ] in
  properties ← for_each (select_body self) properties select_fields;
  let rich_text_fields :=
    [ (Key.career, get person_data Key.career);
      (Key.education,
       or_ (get person_data Key.education_school) (get person_data Key.education));
      (Key.employer, get person_data Key.employer);
      (Key.duties, get person_data Key.duties);
      (Key.skills, get person_data Key.skills);
      (Key.position, get person_data Key.position) ] in
  properties ← for_each (rich_text_body self) properties rich_text_fields;
  Ok properties.

(** [upload_person]: the whole body runs under [try]; [except Exception]
    turns whatever was raised into a failure pair. *)
Definition upload_person {W} (self : NotionUploader W) (w : W) (person_data : RawRecord)
    : W * result (bool * pystr) :=
  let '(w', body) :=
    if negb (truthy (get person_data Key.name))
    then (w, Ok (false, msg_no_name))
    else
      match _build_properties self person_data with
      | Raise e => (w, Raise e)
      | Ok properties =>
        match pages_create (notion self) w (database_id self) properties with
        | (w', Raise e) => (w', Raise e)
        | (w', Ok _) =>
          (w', name ← getitem person_data Key.name;
               Ok (true, quote ++ str name ++ msg_uploaded))
        end
      end in
  (w', try_except body (fun e => Ok (false, msg_upload_failed ++ str_exn e))).

(** The list branch of [main]: one [upload_person] per record, in order,
    counting successes and appending one log line per record.  An exception
    escaping [upload_person] would end the loop. *)
Fixpoint upload_loop {W} (uploader : NotionUploader W) (data : list RawRecord)
    (w : W) (success_count : nat) (log_messages : list pystr)
    : W * result (nat * list pystr) :=
  match data with
  | [] => (w, Ok (success_count, log_messages))
  | person_data :: rest =>
    match upload_person uploader w person_data with
    | (w', Raise e) => (w', Raise e)
    | (w', Ok (success, message)) =>
      if success
      then upload_loop uploader rest w' (success_count + 1)
             (log_messages ++ [mark_ok ++ message])
      else upload_loop uploader rest w' success_count
             (log_messages ++ [mark_fail ++ message])
    end
  end.

Definition upload_list {W} (uploader : NotionUploader W) (w : W) (data : list RawRecord)
    : W * result (nat * list pystr) :=
  upload_loop uploader data w 0%nat [].

End WebApp.

(** ** file to notion.py *)
Module FileToNotion.

Definition _format_phone (phone : value) : pystr :=
  let phone_cleaned := filter (fun c => isdigit c = true) (str phone) in
  if (length phone_cleaned =? 11)%nat && startswith prefix_010 phone_cleaned
  then slice 0 3 phone_cleaned ++ [hyphen] ++ slice 3 7 phone_cleaned
         ++ [hyphen] ++ drop 7 phone_cleaned
  else str phone.

(** Body of [for field, value in select_fields.items()]. *)
Definition select_body (db_info : Schema) (properties : PropertySet)
    (item : pystr * value) : result PropertySet :=
  let '(field, v) := item in
  if truthy v then
    match db_info !! field with
    | Some ty =>
      if bool_decide (ty = Kind.select)
      then Ok (<[field := Select (str v)]> properties)
      else Ok properties
    | None => Ok properties
    end
  else Ok properties.

(** Body of [for field, value in rich_text_fields.items()]. *)
Definition rich_text_body (db_info : Schema) (properties : PropertySet)
    (item : pystr * value) : result PropertySet :=
  let '(field, v) := item in
  if truthy v then
    match db_info !! field with
    | Some prop_type =>
      if bool_decide (prop_type = Kind.rich_text)
      then Ok (<[field := RichText (str v)]> properties)
      else if bool_decide (prop_type = Kind.multi_select)
              && bool_decide (field = Key.position)
      then
        let values := map strip (split comma (str v)) in
        Ok (<[field := MultiSelect (filter (fun val => val <> []) values)]> properties)
      else Ok properties
    | None => Ok properties
    end
  else Ok properties.

Definition _build_properties (person_data : RawRecord) (db_info : Schema)
    : result PropertySet :=
  let properties : PropertySet := ∅ in
  properties ←
    (if truthy (get person_data Key.name)
     then name ← getitem person_data Key.name;
          Ok (<[Key.name := Title (str name)]> properties)
     else Ok properties);
  properties ←
    (if truthy (get person_data Key.email)
     then email ← getitem person_data Key.email;
          Ok (<[Key.email := Email email]> properties)
     else Ok properties);
  properties ←
    (if truthy (get person_data Key.phone)
     then raw ← getitem person_data Key.phone;
          let phone := _format_phone raw in
          try_except (setitem properties Key.phone (PhoneNumber phone))
            (fun _ => setitem properties Key.phone (RichText phone))
     else Ok properties);
  let select_fields :=
    [ (Key.age, get person_data Key.age);
      (Key.gender, get person_data Key.gender) ] in
  properties ← for_each (select_body db_info) properties select_fields;
  let rich_text_fields :=
    [ (Key.career, get person_data Key.career);
      (Key.education, get person_data Key.education);
      (Key.employer, get person_data Key.employer);
      (Key.duties, get person_data Key.duties);
      (Key.skills, get person_data Key.skills);
      (Key.position, get person_data Key.position) ] in
  properties ← for_each (rich_text_body db_info) properties rich_text_fields;
  Ok properties.

(** What [upload_to_notion] returns: [False] for empty data, [None] after
    any failure, the created page's response otherwise. *)
Inductive upload_return :=
| ReturnFalse
| ReturnNone
| ReturnResponse (response : value).

(** [upload_to_notion]: the schema is retrieved on every call; a failed
    retrieval and any later exception both end in [return None]. *)
Definition upload_to_notion {W} (notion_client : Client W) (w : W)
    (data : RawRecord) (notion_db_id : pystr) : W * result upload_return :=
  if decide (data = ∅) then (w, Ok ReturnFalse)
  else
    match databases_retrieve notion_client w notion_db_id with
    | (w1, Raise _) => (w1, Ok ReturnNone)
    | (w1, Ok db_info) =>
      let '(w2, body) :=
        match _build_properties data db_info with
        | Raise e => (w1, Raise e)
        | Ok properties =>
          match pages_create notion_client w1 notion_db_id properties with
          | (w2, Raise e) => (w2, Raise e)
          | (w2, Ok response) => (w2, Ok (ReturnResponse response))
          end
        end in
      (w2, try_except body (fun _ => Ok ReturnNone))
    end.

End FileToNotion.

(** ** Vocabulary of the specification *)

(** The digit sequence of a string: what is left when every non-digit
    character is deleted. *)
Definition digits (s : pystr) : pystr := filter (fun c => isdigit c = true) s.

(** Patterns of fixed shape: a decimal digit ([\d], as [re] reads it on a
    [str]) or a literal character. *)
Inductive atom :=
| Digit
| Lit (c : N).

Fixpoint fullmatch (pat : list atom) (s : pystr) : bool :=
  match pat, s with
  | [], [] => true
  | Digit :: pat', c :: s' => isdecimal c && fullmatch pat' s'
  | Lit a :: pat', c :: s' => (c =? a) && fullmatch pat' s'
  | _, _ => false
  end.

(** [\d{3}-\d{4}-\d{4}] *)
Definition phone_pattern : list atom :=
  replicate 3 Digit ++ [Lit hyphen] ++ replicate 4 Digit ++ [Lit hyphen]
    ++ replicate 4 Digit.

(** The fields written as a single choice, and those written as text. *)
Definition select_expected : list pystr := [Key.age; Key.gender].
Definition free_text : list pystr :=
  [Key.career; Key.education; Key.employer; Key.duties; Key.skills; Key.position].

(** The schema kinds under which a field is written: [select] for the
    select-expected fields, [rich_text] for the free-text fields, and also
    [multi_select] for the target position. *)
Definition expected_kinds (f : pystr) : list pystr :=
  (if bool_decide (f ∈ select_expected) then [Kind.select] else [])
  ++ (if bool_decide (f ∈ free_text) then [Kind.rich_text] else [])
  ++ (if bool_decide (f = Key.position) then [Kind.multi_select] else []).

(** The comma-separated choices of a value: split, trim, drop the empty
    segments. *)
Definition position_choices (v : value) : list pystr :=
  filter (fun val => val <> []) (map strip (split comma (str v))).

(** The payload of a given kind for a value: nothing is coerced to another
    kind. *)
Definition payload_for (kind : pystr) (v : value) : payload :=
  if bool_decide (kind = Kind.select) then Select (str v)
  else if bool_decide (kind = Kind.rich_text) then RichText (str v)
  else MultiSelect (position_choices v).

(** The record keys each program reads for a field of the destination. *)
Definition file_keys (f : pystr) : list pystr := [f].
Definition app_keys (f : pystr) : list pystr :=
  if bool_decide (f = Key.age) then [Key.age_paren; Key.age]
  else if bool_decide (f = Key.education) then [Key.education_school; Key.education]
  else [f].

(** A property written under the schema's control: its value is present,
    non-null and non-empty in the record, the schema declares the field,
    with a kind the field is written under, and the payload is of that
    kind. *)
Definition schema_gated (keys : pystr -> list pystr) (sch : Schema) (pd : RawRecord)
    (f : pystr) (p : payload) : Prop :=
  exists key v kind,
    key ∈ keys f /\ pd !! key = Some v /\ v <> PNone /\ truthy v = true
    /\ sch !! f = Some kind /\ kind ∈ expected_kinds f /\ p = payload_for kind v.

(** A property written without consulting the schema: the title, the
    e-mail address and the phone number. *)
Definition ungated (format_phone : value -> pystr) (pd : RawRecord)
    (f : pystr) (p : payload) : Prop :=
  (f = Key.name /\ p = Title (str (get pd Key.name)))
  \/ (f = Key.email /\ truthy (get pd Key.email) = true
      /\ p = Email (get pd Key.email))
  \/ (f = Key.phone /\ truthy (get pd Key.phone) = true
      /\ p = PhoneNumber (format_phone (get pd Key.phone))).

(** The log line of one record's outcome, and the test that tells a success
    line from a failure line. *)
Definition log_line (success : bool) (message : pystr) : pystr :=
  (if success then WebApp.mark_ok else WebApp.mark_fail) ++ message.

Definition is_success_line (line : pystr) : bool :=
  startswith (u "✅") line.

(** [needle in haystack] for strings. *)
Fixpoint contains (needle haystack : pystr) : bool :=
  startswith needle haystack
  || match haystack with
     | [] => false
     | _ :: rest => contains needle rest
     end.

(** The number of success lines of a log. *)
Definition count_success (log : list pystr) : nat :=
  length (filter (fun line => is_success_line line = true) log).

(** ** Normal forms of the mappers *)

Definition with_title (pd : RawRecord) (properties : PropertySet) : PropertySet :=
  <[Key.name := Title (str (get pd Key.name))]> properties.

Definition with_email (pd : RawRecord) (properties : PropertySet) : PropertySet :=
  if truthy (get pd Key.email)
  then <[Key.email := Email (get pd Key.email)]> properties
  else properties.

Definition with_phone (pd : RawRecord) (properties : PropertySet) : PropertySet :=
  if truthy (get pd Key.phone)
  then <[Key.phone := PhoneNumber (WebApp._format_phone (get pd Key.phone))]> properties
  else properties.

Definition select_store (sch : Schema) (properties : PropertySet)
    (field : pystr) (v : value) : PropertySet :=
  if truthy v && bool_decide (sch !! field = Some Kind.select)
  then <[field := Select (str v)]> properties
  else properties.

Definition rich_text_store (sch : Schema) (properties : PropertySet)
    (field : pystr) (v : value) : PropertySet :=
  if truthy v && bool_decide (sch !! field = Some Kind.rich_text)
  then <[field := RichText (str v)]> properties
  else if truthy v && bool_decide (sch !! field = Some Kind.multi_select)
          && bool_decide (field = Key.position)
  then <[field := MultiSelect (position_choices v)]> properties
  else properties.

(** The six rich-text stores, in the order of the source's dictionary. *)
Definition rich_text_stores (sch : Schema) (pd : RawRecord) (edu : value)
    (properties : PropertySet) : PropertySet :=
  let p := rich_text_store sch properties Key.career (get pd Key.career) in
  let p := rich_text_store sch p Key.education edu in
  let p := rich_text_store sch p Key.employer (get pd Key.employer) in
  let p := rich_text_store sch p Key.duties (get pd Key.duties) in
  let p := rich_text_store sch p Key.skills (get pd Key.skills) in
  rich_text_store sch p Key.position (get pd Key.position).

Definition select_stores (sch : Schema) (pd : RawRecord) (age : value)
    (properties : PropertySet) : PropertySet :=
  let p := select_store sch properties Key.age age in
  select_store sch p Key.gender (get pd Key.gender).

(** The value each program reads for the age and the education field. *)
Definition app_age (pd : RawRecord) : value :=
  or_ (get pd Key.age_paren) (get pd Key.age).
Definition app_education (pd : RawRecord) : value :=
  or_ (get pd Key.education_school) (get pd Key.education).

Definition app_properties (sch : Schema) (pd : RawRecord) : PropertySet :=
  rich_text_stores sch pd (app_education pd)
    (select_stores sch pd (app_age pd)
       (with_phone pd (with_email pd (with_title pd ∅)))).

Definition file_properties (sch : Schema) (pd : RawRecord) : PropertySet :=
  rich_text_stores sch pd (get pd Key.education)
    (select_stores sch pd (get pd Key.age)
       (with_phone pd (with_email pd
          (if truthy (get pd Key.name) then with_title pd ∅ else ∅)))).

(** ** Sample clients and records *)

Definition sample_page : value :=
  POther true (u "{'object': 'page'}").

(** A destination that answers every call. *)
Definition ok_client (sch : Schema) : Client unit :=
  mkClient (fun w _ => (w, Ok sch)) (fun w _ _ => (w, Ok sample_page)).

(** A destination whose every call raises. *)
Definition down_client : Client unit :=
  mkClient (fun w _ => (w, Raise (APIError (u "boom"))))
           (fun w _ _ => (w, Raise (APIError (u "boom")))).

Definition sample_db : pystr := u "db".

Definition connected (sch : Schema) : WebApp.NotionUploader unit :=
  WebApp.mkUploader (ok_client sch) sample_db (Some sch).

Definition rec_email_only : RawRecord :=
  {[ Key.email := PStr (u "a@b.c") ]}.

Definition rec_name_email : RawRecord :=
  <[ Key.name := PStr (u "A") ]> {[ Key.email := PStr (u "a@b.c") ]}.

(** An uploader whose schema was retrieved and whose destination then went
    down. *)
Definition down_uploader : WebApp.NotionUploader unit :=
  WebApp.mkUploader down_client sample_db (Some ∅).

Definition rec_name_only : RawRecord := {[ Key.name := PStr (u "A") ]}.

Definition rec_empty_position : RawRecord :=
  <[ Key.position := PStr [] ]> rec_name_only.

Definition sch_position_multi : Schema := {[ Key.position := Kind.multi_select ]}.

Definition rec_old_age_key : RawRecord :=
  <[ Key.age_paren := PStr (u "1990년") ]> rec_name_only.

Definition sch_age_select : Schema := {[ Key.age := Kind.select ]}.

Definition rec_empty_name : RawRecord := {[ Key.name := PStr [] ]}.

Definition rec_empty_phone : RawRecord :=
  <[ Key.phone := PStr [] ]> rec_name_only.

(** The single-person sample of the web app, with a comma-separated
    position and an unformatted phone number. *)
Definition sample_person : RawRecord :=
  list_to_map
    [ (Key.name, PStr (u "홍길동"));
      (Key.career, PStr (u "5년 3개월"));
      (Key.position, PStr (u "백엔드, 프론트엔드"));
      (Key.age_paren, PStr (u "1990년"));
      (Key.gender, PStr (u "남"));
      (Key.education_school, PStr (u "서울대학교 컴퓨터공학과"));
      (Key.employer, PStr (u "카카오"));
      (Key.duties, PStr (u "시니어 개발자 / API 개발"));
      (Key.phone, PStr (u "01012345678"));
      (Key.email, PStr (u "hong@example.com"));
      (Key.skills, PStr (u "Python, Django, AWS, Docker")) ].

(** The same person under the keys of the résumé parser's JSON schema. *)
Definition sample_resume : RawRecord :=
  list_to_map
    [ (Key.name, PStr (u "홍길동"));
      (Key.career, PStr (u "5년 3개월"));
      (Key.position, PStr (u "백엔드, 프론트엔드"));
      (Key.age, PStr (u "1990년"));
      (Key.gender, PStr (u "남"));
      (Key.education, PStr (u "서울대학교 컴퓨터공학과"));
      (Key.employer, PStr (u "카카오"));
      (Key.duties, PStr (u "시니어 개발자 / API 개발"));
      (Key.phone, PStr (u "01012345678"));
      (Key.email, PStr (u "hong@example.com"));
      (Key.skills, PStr (u "Python, Django, AWS, Docker")) ].

(** The database the résumé parser's sidebar asks for. *)
Definition sample_schema : Schema :=
  list_to_map
    [ (Key.name, u "title");
      (Key.age, Kind.select);
      (Key.gender, Kind.select);
      (Key.career, Kind.rich_text);
      (Key.employer, Kind.rich_text);
      (Key.education, Kind.rich_text);
      (Key.duties, Kind.rich_text);
      (Key.phone, u "phone_number");
      (Key.email, u "email");
      (Key.skills, Kind.rich_text);
      (Key.position, Kind.multi_select) ].

(** What both mappers build for the sample person. *)
Definition sample_properties : PropertySet :=
  list_to_map
    [ (Key.name, Title (u "홍길동"));
      (Key.email, Email (PStr (u "hong@example.com")));
      (Key.phone, PhoneNumber (u "010-1234-5678"));
      (Key.age, Select (u "1990년"));
      (Key.gender, Select (u "남"));
      (Key.career, RichText (u "5년 3개월"));
      (Key.education, RichText (u "서울대학교 컴퓨터공학과"));
      (Key.employer, RichText (u "카카오"));
      (Key.duties, RichText (u "시니어 개발자 / API 개발"));
      (Key.skills, RichText (u "Python, Django, AWS, Docker"));
      (Key.position, MultiSelect [u "백엔드"; u "프론트엔드"]) ].

(** A destination that counts the create-page calls and fails the second
    one. *)
Definition flaky_client (sch : Schema) : Client nat :=
  mkClient (fun w _ => (w, Ok sch))
           (fun w _ _ =>
              (S w, if (w =? 1)%nat then Raise (APIError (u "boom"))
                    else Ok sample_page)).

Definition flaky_uploader : WebApp.NotionUploader nat :=
  WebApp.mkUploader (flaky_client ∅) sample_db (Some ∅).

(** ** The rest of the two programs *)

(** [sep.join(l)] *)
Fixpoint join (sep : pystr) (l : list pystr) : pystr :=
  match l with
  | [] => []
  | [x] => x
  | x :: rest => x ++ sep ++ join sep rest
  end.

(** [str(n)] for a non-negative integer. *)
Definition str_nat (n : nat) : pystr :=
  u (NilEmpty.string_of_uint (Nat.to_uint n)).

Definition space : N := 0x20.
Definition newline : N := 0x0A.

(** The upload column of [main] in json_notion_webapp.py. *)
Module WebAppMain.

(** The names the sidebar lists after a connection test. *)
Definition displayed_names : list pystr :=
  [ Key.name; Key.email; Key.phone; Key.career; Key.age; Key.gender;
    Key.education; Key.skills; Key.position; Key.employer; Key.duties ].

(** The parsed input: a JSON object, a JSON array of objects, or any other
    JSON value, of which only the truth value matters. *)
Inductive json_data :=
| DataDict (d : RawRecord)
| DataList (l : list RawRecord)
| DataOther (truth : bool).

(** [bool(data)] *)
Definition data_truth (data : json_data) : bool :=
  match data with
  | DataDict d => negb (bool_decide (d = ∅))
  | DataList l => negb (bool_decide (l = []))
  | DataOther b => b
  end.

Definition msg_all_done : pystr := Eval vm_compute in u "🎉 모든 데이터 업로드 완료! (".
Definition msg_partial : pystr := Eval vm_compute in u "⚠️ 부분 성공: ".
Definition msg_partial_end : pystr := Eval vm_compute in u " 업로드 완료".
Definition slash : pystr := Eval vm_compute in u "/".
Definition close_paren : pystr := Eval vm_compute in u ")".

(** The closing message of a batch: [st.success] (flag [true]) when every
    record was uploaded, [st.warning] otherwise. *)
Definition final_message (success_count total : nat) : bool * pystr :=
  if (success_count =? total)%nat
  then (true, msg_all_done ++ str_nat success_count ++ slash ++ str_nat total
                ++ close_paren)
  else (false, msg_partial ++ str_nat success_count ++ slash ++ str_nat total
                 ++ msg_partial_end).

(** The text of the log area: ["\n".join(log_messages[-5:])]. *)
Definition recent (log_messages : list pystr) : list pystr :=
  drop (length log_messages - 5) log_messages.

Definition log_text (log_messages : list pystr) : pystr :=
  join [newline] (recent log_messages).

(** What the upload button shows. *)
Inductive report :=
| NoReport
| PersonReport (success : bool) (message : pystr)
| BatchReport (closing : bool * pystr) (log_messages : list pystr).

(** The body of the upload button: nothing without an uploader or with
    falsy data, one [upload_person] for an object, the loop for an array. *)
Definition upload_clicked {W} (uploader : option (WebApp.NotionUploader W))
    (data : json_data) (w : W) : W * result report :=
  match uploader with
  | None => (w, Ok NoReport)
  | Some uploader =>
    if data_truth data then
      match data with
      | DataDict d =>
        let '(w', r) := WebApp.upload_person uploader w d in
        (w', match r with
             | Ok (success, message) => Ok (PersonReport success message)
             | Raise e => Raise e
             end)
      | DataList l =>
        let total := length l in
        let '(w', r) := WebApp.upload_list uploader w l in
        (w', match r with
             | Ok (success_count, log_messages) =>
               Ok (BatchReport (final_message success_count total) log_messages)
             | Raise e => Raise e
             end)
      | DataOther _ => (w, Ok NoReport)
      end
    else (w, Ok NoReport)
  end.

End WebAppMain.

(** The summary column of [main] in file to notion.py. *)
Module FileToNotionMain.

(** The keys of [RESUME_SCHEMA]. *)
Definition resume_schema_keys : list pystr :=
  [ Key.name; Key.age; Key.gender; Key.career; Key.employer; Key.education;
    Key.duties; Key.phone; Key.email; Key.skills; Key.position ].

Definition bullet : pystr := Eval vm_compute in u "• **".
Definition bullet_end : pystr := Eval vm_compute in u "**: ".
Definition comma_space : pystr := [comma; space].

(** One line of the summary of the extracted data; no line for [None]. *)
Definition summary_line (key : pystr) (v : value) : option pystr :=
  match v with
  | PNone => None
  | _ =>
    if bool_decide (key = Key.skills) && bool_decide (comma ∈ str v) then
      let skills := map strip (split comma (str v)) in
      Some (bullet ++ key ++ bullet_end ++ join comma_space skills)
    else if bool_decide (key = Key.position) && bool_decide (comma ∈ str v) then
      let positions := map strip (split comma (str v)) in
      Some (bullet ++ key ++ bullet_end ++ join comma_space positions)
    else Some (bullet ++ key ++ bullet_end ++ str v)
  end.

End FileToNotionMain.

(** ** Further vocabulary *)

(** A choice name that can be sent as it is: not empty, free of commas,
    with no white space at either end. *)
Definition clean_choice (name : pystr) : Prop :=
  name <> [] /\ (comma ∉ name) /\ strip name = name.

(** The record keys the web app's mapper reads. *)
Definition app_read_keys : list pystr :=
  FileToNotionMain.resume_schema_keys ++ [Key.age_paren; Key.education_school].

(** The schema entries both mappers read. *)
Definition schema_read_keys : list pystr := select_expected ++ free_text.

(** Whether a record fills any of the eight fields that are written only
    after a look at the schema, as the web app reads them. *)
Definition fills_gated_field (pd : RawRecord) : bool :=
  existsb truthy
    [ app_age pd; get pd Key.gender; get pd Key.career; app_education pd;
      get pd Key.employer; get pd Key.duties; get pd Key.skills;
      get pd Key.position ].

(** The title, e-mail and phone properties of a record that has a name
    key. *)
Definition base_properties (pd : RawRecord) : PropertySet :=
  with_phone pd (with_email pd (with_title pd ∅)).

(** The value the web app reads for a field of the destination: for the
    age and the education, the older spelling first. *)
Definition app_value (pd : RawRecord) (f : pystr) : value :=
  if bool_decide (f = Key.age) then app_age pd
  else if bool_decide (f = Key.education) then app_education pd
  else get pd f.

(** ** Further samples *)

(** The sample résumé with a key no mapper knows, and a schema that
    declares it. *)
Definition sample_resume_annotated : RawRecord :=
  <[ u "메모" := PStr (u "추천") ]> sample_resume.

Definition sample_schema_extended : Schema :=
  <[ u "메모" := Kind.rich_text ]> sample_schema.

(** The annotated résumé with a birth year under the older age key as
    well. *)
Definition sample_resume_old_keys : RawRecord :=
  <[ Key.age_paren := PStr (u "1980년") ]> sample_resume_annotated.

(** ** Tactics *)

(** Two different keys: their code points differ. *)
Ltac distinct_keys :=
  let H := fresh in intros H; vm_compute in H; discriminate H.

(** Membership in a list of keys or kinds given in full. *)
Ltac solve_elem := vm_compute; repeat constructor.

(** * Properties *)

(** ** The phone normaliser *)

Lemma digits_are_digits (s : pystr) : Forall (fun c => isdigit c = true) (digits s).
Proof.
  unfold digits. apply Forall_forall. intros c Hc.
  apply list_elem_of_filter in Hc. tauto.
Qed.

Lemma digits_fixed (l : pystr) :
  Forall (fun c => isdigit c = true) l -> digits l = l.
Proof.
  unfold digits. induction 1 as [|c l Hc _ IH]; [done|].
  rewrite filter_cons_True by done. by rewrite IH.
Qed.

Lemma digits_app (a b : pystr) : digits (a ++ b) = digits a ++ digits b.
Proof. apply filter_app. Qed.

Lemma digits_hyphen : digits [hyphen] = [].
Proof. reflexivity. Qed.

Lemma format_phone_same (phone : value) :
  FileToNotion._format_phone phone = WebApp._format_phone phone.
Proof. reflexivity. Qed.

Lemma ascii_digit_decimal (c : N) : 0x30 <= c <= 0x39 -> isdecimal c = true.
Proof.
  intros [Hlo Hhi]. unfold isdecimal, in_ranges, decimal_ranges.
  cbn [existsb fst snd]. apply orb_true_iff. left.
  apply andb_true_iff. split; by apply N.leb_le.
Qed.

(** C4, as the specification states it, fails: the characters the
    normaliser keeps are those of [str.isdigit], which holds of more than
    the decimal digits [\d] stands for.  Eleven kept characters that start
    with 010 and go on with superscript twos are reformatted, and the
    result does not match [\d{3}-\d{4}-\d{4}]. *)
Lemma superscript_digits_break_pattern :
  digits (u "010²²²²²²²²") = u "010²²²²²²²²"
  /\ length (digits (u "010²²²²²²²²")) = 11%nat
  /\ startswith prefix_010 (digits (u "010²²²²²²²²")) = true
  /\ WebApp._format_phone (PStr (u "010²²²²²²²²")) = u "010-²²²²-²²²²"
  /\ fullmatch phone_pattern (u "010-²²²²-²²²²") = false.
Proof. repeat split; vm_compute; reflexivity. Qed.

(** C4 (amended).  The phone normaliser is a total function of its input
    string.  With [d] the characters of the input that [str.isdigit]
    accepts, in order: when [d] has exactly 11 characters and starts with
    010, the result is the first three of them, a hyphen, the next four, a
    hyphen and the last four, so its digit sequence is [d] again; it
    matches [\d{3}-\d{4}-\d{4}] exactly when all of [d] are decimal digits,
    as they are when the input's digits are ASCII 0-9.  In every other case
    the result is the input itself.  Both programs' normalisers agree. *)
Theorem format_phone_spec (s : pystr) :
  let d := digits s in
  let out := WebApp._format_phone (PStr s) in
  FileToNotion._format_phone (PStr s) = out
  /\ ((length d = 11%nat /\ startswith prefix_010 d = true) ->
      out = take 3 d ++ [hyphen] ++ take 4 (drop 3 d) ++ [hyphen] ++ drop 7 d
      /\ length (drop 7 d) = 4%nat
      /\ digits out = d
      /\ (fullmatch phone_pattern out = true
          <-> Forall (fun c => isdecimal c = true) d)
      /\ (Forall (fun c => 0x30 <= c <= 0x39) d ->
          fullmatch phone_pattern out = true))
  /\ (~ (length d = 11%nat /\ startswith prefix_010 d = true) -> out = s).
Proof.
  intros d out. split; [reflexivity|].
  assert (Hout : out =
    if (length d =? 11)%nat && startswith prefix_010 d
    then take 3 d ++ [hyphen] ++ take 4 (drop 3 d) ++ [hyphen] ++ drop 7 d
    else s) by reflexivity.
  pose proof (digits_are_digits s) as Hall. fold d in Hall.
  clearbody out d. subst out. split.
  - intros [Hlen Hpre].
    rewrite Hpre, (proj2 (Nat.eqb_eq _ _) Hlen). cbn [andb].
    split; [reflexivity|].
    split; [rewrite length_drop; lia|].
    assert (Hmatch :
      fullmatch phone_pattern
        (take 3 d ++ [hyphen] ++ take 4 (drop 3 d) ++ [hyphen] ++ drop 7 d) = true
      <-> Forall (fun c => isdecimal c = true) d).
    { clear Hall Hpre.
      do 11 (destruct d as [|? d]; [discriminate Hlen|]).
      destruct d; [|discriminate Hlen].
      cbn -[isdecimal N.eqb]. change (hyphen =? hyphen) with true.
      rewrite !andb_true_iff, !Forall_cons, Forall_nil. tauto. }
    split; [|split; [exact Hmatch|]].
    + rewrite !digits_app, digits_hyphen.
      rewrite !digits_fixed
        by (repeat first [apply Forall_take | apply Forall_drop]; exact Hall).
      cbn [app].
      replace (drop 7 d) with (drop 4 (drop 3 d)) by (by rewrite drop_drop).
      by rewrite !take_drop.
    + intros Hascii. apply Hmatch.
      eapply Forall_impl; [exact Hascii|]. apply ascii_digit_decimal.
  - intros Hno.
    destruct (Nat.eqb_spec (length d) 11) as [Hlen|Hlen]; cbn [andb]; [|reflexivity].
    destruct (startswith prefix_010 d) eqn:Hpre; [|reflexivity].
    exfalso. apply Hno. by split.
Qed.

(** ** The mappers in normal form *)

Lemma truthy_get (pd : RawRecord) (k : pystr) :
  truthy (get pd k) = true -> pd !! k = Some (get pd k) /\ get pd k <> PNone.
Proof.
  unfold get. destruct (pd !! k) as [v|]; cbn; [|discriminate].
  intros Hv. split; [done|]. by intros ->.
Qed.

Lemma getitem_truthy (pd : RawRecord) (k : pystr) :
  truthy (get pd k) = true -> getitem pd k = Ok (get pd k).
Proof. intros [H _]%truthy_get. unfold getitem. by rewrite H. Qed.

Lemma getitem_present (pd : RawRecord) (k : pystr) (v : value) :
  pd !! k = Some v -> getitem pd k = Ok v /\ get pd k = v.
Proof. intros H. unfold getitem, get. by rewrite H. Qed.

Lemma file_select_body (sch : Schema) (properties : PropertySet) (f : pystr) (v : value) :
  FileToNotion.select_body sch properties (f, v) = Ok (select_store sch properties f v).
Proof.
  unfold FileToNotion.select_body, select_store.
  destruct (truthy v); [|done]. cbn [andb].
  destruct (sch !! f) as [ty|] eqn:Hf.
  - destruct (bool_decide_reflect (ty = Kind.select)) as [->|Hne].
    + by rewrite bool_decide_eq_true_2.
    + rewrite bool_decide_eq_false_2; [done|]. congruence.
  - by rewrite bool_decide_eq_false_2.
Qed.

Lemma file_rich_text_body (sch : Schema) (properties : PropertySet) (f : pystr) (v : value) :
  FileToNotion.rich_text_body sch properties (f, v)
  = Ok (rich_text_store sch properties f v).
Proof.
  unfold FileToNotion.rich_text_body, rich_text_store, position_choices.
  destruct (truthy v); [|done]. cbn [andb].
  destruct (sch !! f) as [ty|] eqn:Hf;
    repeat case_bool_decide; simplify_eq; cbn [andb]; try done.
Qed.

Lemma app_select_body {W} (self : WebApp.NotionUploader W) (sch : Schema)
    (properties : PropertySet) (item : pystr * value) :
  WebApp.db_info self = Some sch ->
  WebApp.select_body self properties item = FileToNotion.select_body sch properties item.
Proof.
  intros H. destruct item as [f v].
  unfold WebApp.select_body, FileToNotion.select_body, WebApp.db_properties.
  rewrite H. by destruct (truthy v).
Qed.

Lemma app_rich_text_body {W} (self : WebApp.NotionUploader W) (sch : Schema)
    (properties : PropertySet) (item : pystr * value) :
  WebApp.db_info self = Some sch ->
  WebApp.rich_text_body self properties item
  = FileToNotion.rich_text_body sch properties item.
Proof.
  intros H. destruct item as [f v].
  unfold WebApp.rich_text_body, FileToNotion.rich_text_body, WebApp.db_properties.
  rewrite H. by destruct (truthy v).
Qed.

Lemma file_build_normal (pd : RawRecord) (sch : Schema) :
  FileToNotion._build_properties pd sch = Ok (file_properties sch pd).
Proof.
  unfold FileToNotion._build_properties, file_properties, rich_text_stores,
    select_stores, with_phone, with_email, with_title.
  destruct (truthy (get pd Key.name)) eqn:Hn;
    destruct (truthy (get pd Key.email)) eqn:He;
    destruct (truthy (get pd Key.phone)) eqn:Hp;
    rewrite ?(getitem_truthy _ _ Hn), ?(getitem_truthy _ _ He), ?(getitem_truthy _ _ Hp);
    repeat first
      [ progress cbn [mbind result_bind try_except setitem for_each]
      | rewrite file_select_body
      | rewrite file_rich_text_body ];
    reflexivity.
Qed.

Lemma app_build_normal {W} (self : WebApp.NotionUploader W) (sch : Schema)
    (pd : RawRecord) (n : value) :
  WebApp.db_info self = Some sch ->
  pd !! Key.name = Some n ->
  WebApp._build_properties self pd = Ok (app_properties sch pd).
Proof.
  intros Hdb Hname.
  destruct (getitem_present _ _ _ Hname) as [Hgi Hget].
  unfold WebApp._build_properties, app_properties, rich_text_stores,
    select_stores, with_phone, with_email, with_title, app_age, app_education.
  rewrite Hgi, Hget.
  destruct (truthy (get pd Key.email)) eqn:He;
    destruct (truthy (get pd Key.phone)) eqn:Hp;
    rewrite ?(getitem_truthy _ _ He), ?(getitem_truthy _ _ Hp);
    repeat first
      [ progress cbn [mbind result_bind try_except setitem for_each]
      | rewrite (app_select_body self sch) by exact Hdb
      | rewrite (app_rich_text_body self sch) by exact Hdb
      | rewrite file_select_body
      | rewrite file_rich_text_body ];
    reflexivity.
Qed.

Lemma app_build_no_name {W} (self : WebApp.NotionUploader W) (pd : RawRecord) :
  pd !! Key.name = None ->
  WebApp._build_properties self pd = Raise (KeyError Key.name).
Proof.
  intros H. unfold WebApp._build_properties, getitem. by rewrite H.
Qed.

(** *** Lookups in the stores *)

Lemma lookup_select_store_ne (sch : Schema) (props : PropertySet) (f k : pystr) (v : value) :
  k <> f -> select_store sch props f v !! k = props !! k.
Proof.
  intros Hne. unfold select_store.
  destruct (_ && _); [|done]. by rewrite lookup_insert_ne.
Qed.

Lemma lookup_rich_text_store_ne (sch : Schema) (props : PropertySet) (f k : pystr) (v : value) :
  k <> f -> rich_text_store sch props f v !! k = props !! k.
Proof.
  intros Hne. unfold rich_text_store.
  repeat (destruct (_ && _)); try done; by rewrite lookup_insert_ne.
Qed.

Lemma lookup_select_store_inv (sch : Schema) (props : PropertySet) (f k : pystr)
    (v : value) (p : payload) :
  select_store sch props f v !! k = Some p ->
  (k = f /\ truthy v = true /\ sch !! f = Some Kind.select /\ p = Select (str v))
  \/ props !! k = Some p.
Proof.
  unfold select_store.
  destruct (truthy v); cbn [andb]; [|by right].
  case_bool_decide as Hs; [|by right].
  destruct (decide (k = f)) as [->|Hne].
  - rewrite lookup_insert_eq. intros [= <-]. by left.
  - rewrite lookup_insert_ne by done. by right.
Qed.

Lemma lookup_rich_text_store_inv (sch : Schema) (props : PropertySet) (f k : pystr)
    (v : value) (p : payload) :
  rich_text_store sch props f v !! k = Some p ->
  (k = f /\ truthy v = true /\ sch !! f = Some Kind.rich_text /\ p = RichText (str v))
  \/ (k = f /\ f = Key.position /\ truthy v = true
      /\ sch !! f = Some Kind.multi_select /\ p = MultiSelect (position_choices v))
  \/ props !! k = Some p.
Proof.
  unfold rich_text_store.
  destruct (truthy v); cbn [andb]; [|by right; right].
  case_bool_decide as Hr.
  - destruct (decide (k = f)) as [->|Hne].
    + rewrite lookup_insert_eq. intros [= <-]. by left.
    + rewrite lookup_insert_ne by done. by right; right.
  - case_bool_decide as Hm; cbn [andb]; [|by right; right].
    case_bool_decide as Hp; [|by right; right].
    destruct (decide (k = f)) as [->|Hne].
    + rewrite lookup_insert_eq. intros [= <-]. right; left. done.
    + rewrite lookup_insert_ne by done. by right; right.
Qed.

Lemma lookup_with_email_ne (pd : RawRecord) (props : PropertySet) (k : pystr) :
  k <> Key.email -> with_email pd props !! k = props !! k.
Proof.
  intros Hne. unfold with_email. destruct (truthy _); [|done].
  by rewrite lookup_insert_ne.
Qed.

Lemma lookup_with_phone_ne (pd : RawRecord) (props : PropertySet) (k : pystr) :
  k <> Key.phone -> with_phone pd props !! k = props !! k.
Proof.
  intros Hne. unfold with_phone. destruct (truthy _); [|done].
  by rewrite lookup_insert_ne.
Qed.

Lemma lookup_select_stores_ne (sch : Schema) (pd : RawRecord) (age : value)
    (props : PropertySet) (k : pystr) :
  k <> Key.age -> k <> Key.gender ->
  select_stores sch pd age props !! k = props !! k.
Proof.
  intros. unfold select_stores. by rewrite !lookup_select_store_ne.
Qed.

Lemma lookup_rich_text_stores_ne (sch : Schema) (pd : RawRecord) (edu : value)
    (props : PropertySet) (k : pystr) :
  k <> Key.career -> k <> Key.education -> k <> Key.employer ->
  k <> Key.duties -> k <> Key.skills -> k <> Key.position ->
  rich_text_stores sch pd edu props !! k = props !! k.
Proof.
  intros. unfold rich_text_stores. by rewrite !lookup_rich_text_store_ne.
Qed.


Lemma truthy_or (a b : value) :
  truthy (or_ a b) = true ->
  (truthy a = true /\ or_ a b = a) \/ (truthy b = true /\ or_ a b = b).
Proof.
  unfold or_. destruct (truthy a) eqn:Ha; intros H; [left|right]; done.
Qed.

Lemma app_build_ok_name {W} (self : WebApp.NotionUploader W) (pd : RawRecord)
    (props : PropertySet) :
  WebApp._build_properties self pd = Ok props -> is_Some (pd !! Key.name).
Proof.
  intros H. destruct (pd !! Key.name) eqn:Hn; [by eexists|].
  by rewrite (app_build_no_name _ _ Hn) in H.
Qed.

Lemma gated_intro (keys : pystr -> list pystr) (sch : Schema) (pd : RawRecord)
    (f key kind : pystr) :
  key ∈ keys f -> truthy (get pd key) = true ->
  sch !! f = Some kind -> kind ∈ expected_kinds f ->
  schema_gated keys sch pd f (payload_for kind (get pd key)).
Proof.
  intros Hk Ht Hs He. destruct (truthy_get _ _ Ht) as [Hp Hn].
  exists key, (get pd key), kind. done.
Qed.

Lemma lookup_title_inv (pd : RawRecord) (base : PropertySet) (f : pystr) (p : payload) :
  (base = with_title pd ∅ \/ base = ∅) ->
  base !! f = Some p ->
  f = Key.name /\ p = Title (str (get pd Key.name)).
Proof.
  intros [-> | ->]; [|by rewrite lookup_empty].
  unfold with_title. intros H. apply lookup_insert_Some in H.
  destruct H as [[-> <-]|[_ H]]; [done|]. by rewrite lookup_empty in H.
Qed.

(** Which values the base of a property set (title, e-mail, phone) holds. *)
Lemma lookup_base_inv (pd : RawRecord) (base : PropertySet) (f : pystr) (p : payload) :
  (base = with_title pd ∅ \/ base = ∅) ->
  with_phone pd (with_email pd base) !! f = Some p ->
  ungated WebApp._format_phone pd f p.
Proof.
  intros Hbase. unfold with_phone, with_email, ungated.
  destruct (truthy (get pd Key.phone)) eqn:Hp.
  - destruct (decide (f = Key.phone)) as [->|Hne].
    + rewrite lookup_insert_eq. intros [= <-]. by right; right.
    + rewrite lookup_insert_ne by done.
      destruct (truthy (get pd Key.email)) eqn:He.
      * destruct (decide (f = Key.email)) as [->|Hne'].
        -- rewrite lookup_insert_eq. intros [= <-]. by right; left.
        -- rewrite lookup_insert_ne by done.
           intros H. left. by eapply lookup_title_inv.
      * intros H. left. by eapply lookup_title_inv.
  - destruct (truthy (get pd Key.email)) eqn:He.
    + destruct (decide (f = Key.email)) as [->|Hne'].
      * rewrite lookup_insert_eq. intros [= <-]. by right; left.
      * rewrite lookup_insert_ne by done.
        intros H. left. by eapply lookup_title_inv.
    + intros H. left. by eapply lookup_title_inv.
Qed.

(** Every property written by the two loops is schema-gated, whatever the
    base they start from. *)
Lemma lookup_stores_inv (keys : pystr -> list pystr) (sch : Schema) (pd : RawRecord)
    (age edu : value) (base : PropertySet) (f : pystr) (p : payload) :
  (truthy age = true ->
   exists key, key ∈ keys Key.age /\ truthy (get pd key) = true /\ age = get pd key) ->
  (truthy edu = true ->
   exists key, key ∈ keys Key.education /\ truthy (get pd key) = true /\ edu = get pd key) ->
  (forall g, g ∈ [Key.gender; Key.career; Key.employer; Key.duties; Key.skills;
                  Key.position] -> g ∈ keys g) ->
  rich_text_stores sch pd edu (select_stores sch pd age base) !! f = Some p ->
  base !! f = Some p \/ schema_gated keys sch pd f p.
Proof.
  intros Hage Hedu Hother. unfold rich_text_stores, select_stores.
  intros H.
  (* position *)
  apply lookup_rich_text_store_inv in H as [(-> & Ht & Hs & ->)|[(-> & _ & Ht & Hs & ->)|H]].
  { right. apply (gated_intro keys sch pd _ Key.position Kind.rich_text);
      [apply Hother|..]; try done; solve_elem. }
  { right. apply (gated_intro keys sch pd _ Key.position Kind.multi_select);
      [apply Hother|..]; try done; solve_elem. }
  (* skills *)
  apply lookup_rich_text_store_inv in H as [(-> & Ht & Hs & ->)|[(_ & Hk & _)|H]];
    [|exfalso; revert Hk; distinct_keys|].
  { right. apply (gated_intro keys sch pd _ Key.skills Kind.rich_text);
      [apply Hother|..]; try done; solve_elem. }
  (* duties *)
  apply lookup_rich_text_store_inv in H as [(-> & Ht & Hs & ->)|[(_ & Hk & _)|H]];
    [|exfalso; revert Hk; distinct_keys|].
  { right. apply (gated_intro keys sch pd _ Key.duties Kind.rich_text);
      [apply Hother|..]; try done; solve_elem. }
  (* employer *)
  apply lookup_rich_text_store_inv in H as [(-> & Ht & Hs & ->)|[(_ & Hk & _)|H]];
    [|exfalso; revert Hk; distinct_keys|].
  { right. apply (gated_intro keys sch pd _ Key.employer Kind.rich_text);
      [apply Hother|..]; try done; solve_elem. }
  (* education *)
  apply lookup_rich_text_store_inv in H as [(-> & Ht & Hs & ->)|[(_ & Hk & _)|H]];
    [|exfalso; revert Hk; distinct_keys|].
  { right. destruct (Hedu Ht) as (key & Hkey & Htk & ->).
    by apply (gated_intro keys sch pd _ key Kind.rich_text); try done; solve_elem. }
  (* career *)
  apply lookup_rich_text_store_inv in H as [(-> & Ht & Hs & ->)|[(_ & Hk & _)|H]];
    [|exfalso; revert Hk; distinct_keys|].
  { right. apply (gated_intro keys sch pd _ Key.career Kind.rich_text);
      [apply Hother|..]; try done; solve_elem. }
  (* gender *)
  apply lookup_select_store_inv in H as [(-> & Ht & Hs & ->)|H].
  { right. apply (gated_intro keys sch pd _ Key.gender Kind.select);
      [apply Hother|..]; try done; solve_elem. }
  (* age *)
  apply lookup_select_store_inv in H as [(-> & Ht & Hs & ->)|H].
  { right. destruct (Hage Ht) as (key & Hkey & Htk & ->).
    by apply (gated_intro keys sch pd _ key Kind.select); try done; solve_elem. }
  by left.
Qed.

(** ** Name validation *)

(** C1, as the specification states it, fails in [file to notion.py]: a
    record without a name is mapped (to a property set without a title) and
    uploaded; nothing fails. *)
Lemma nameless_record_is_uploaded :
  rec_email_only !! Key.name = None
  /\ FileToNotion._build_properties rec_email_only ∅
     = Ok {[ Key.email := Email (PStr (u "a@b.c")) ]}
  /\ (FileToNotion.upload_to_notion (ok_client ∅) tt rec_email_only sample_db).2
     = Ok (FileToNotion.ReturnResponse sample_page).
Proof. vm_compute. repeat split; reflexivity. Qed.

(** C1 (amended).  In [json_notion_webapp.py], a record whose name is
    absent, null or empty makes [upload_person] return the failure pair with
    the missing-name message, whatever its other fields, and the remote side
    is not called; with a usable name and a retrieved schema the mapper
    returns a property set whose title is the name.  In [file to notion.py]
    the mapper returns a property set for every record: with the title when
    the name is usable, without it otherwise. *)
Theorem name_validation {W} (self : WebApp.NotionUploader W) (w : W)
    (sch : Schema) (pd : RawRecord) :
  ((pd !! Key.name = None \/ pd !! Key.name = Some PNone
    \/ pd !! Key.name = Some (PStr [])) ->
   truthy (get pd Key.name) = false)
  /\ (truthy (get pd Key.name) = false ->
      WebApp.upload_person self w pd = (w, Ok (false, WebApp.msg_no_name)))
  /\ (truthy (get pd Key.name) = true -> WebApp.db_info self = Some sch ->
      exists props, WebApp._build_properties self pd = Ok props
        /\ props !! Key.name = Some (Title (str (get pd Key.name))))
  /\ (exists props, FileToNotion._build_properties pd sch = Ok props
        /\ props !! Key.name
           = if truthy (get pd Key.name)
             then Some (Title (str (get pd Key.name))) else None).
Proof.
  assert (Hframe : forall age edu base,
    rich_text_stores sch pd edu (select_stores sch pd age
      (with_phone pd (with_email pd base))) !! Key.name = base !! Key.name).
  { intros. rewrite lookup_rich_text_stores_ne by distinct_keys.
    rewrite lookup_select_stores_ne by distinct_keys.
    rewrite lookup_with_phone_ne by distinct_keys.
    by rewrite lookup_with_email_ne by distinct_keys. }
  split; [|split; [|split]].
  - unfold get. intros [-> | [-> | ->]]; reflexivity.
  - intros Hn. unfold WebApp.upload_person. by rewrite Hn.
  - intros Hn Hdb. destruct (truthy_get _ _ Hn) as [Hp _].
    exists (app_properties sch pd). split.
    + by apply (app_build_normal self sch pd (get pd Key.name)).
    + unfold app_properties. rewrite Hframe. apply lookup_insert_eq.
  - exists (file_properties sch pd). split; [apply file_build_normal|].
    unfold file_properties. rewrite Hframe.
    destruct (truthy (get pd Key.name)); [apply lookup_insert_eq|apply lookup_empty].
Qed.

(** ** Which fields a property set holds *)

(** C2, as the specification states it, fails: the e-mail address (and the
    phone number) is written although the schema does not declare it. *)
Lemma email_written_without_schema :
  exists props,
    FileToNotion._build_properties rec_name_email ∅ = Ok props
    /\ WebApp._build_properties (connected ∅) rec_name_email = Ok props
    /\ props !! Key.email = Some (Email (PStr (u "a@b.c")))
    /\ Key.email <> Key.name
    /\ (∅ : Schema) !! Key.email = None.
Proof.
  exists (<[ Key.name := Title (u "A") ]> {[ Key.email := Email (PStr (u "a@b.c")) ]}).
  repeat split; try (vm_compute; reflexivity). distinct_keys.
Qed.

Lemma file_keys_source (pd : RawRecord) (f : pystr) :
  truthy (get pd f) = true ->
  exists key, key ∈ file_keys f /\ truthy (get pd key) = true /\ get pd f = get pd key.
Proof. intros H. exists f. repeat split; [apply list_elem_of_here|done]. Qed.

Lemma app_age_source (pd : RawRecord) :
  truthy (app_age pd) = true ->
  exists key, key ∈ app_keys Key.age /\ truthy (get pd key) = true
              /\ app_age pd = get pd key.
Proof.
  unfold app_age. intros H.
  destruct (truthy_or _ _ H) as [[Ht E]|[Ht E]]; rewrite E;
    [exists Key.age_paren|exists Key.age]; (split; [solve_elem|done]).
Qed.

Lemma app_education_source (pd : RawRecord) :
  truthy (app_education pd) = true ->
  exists key, key ∈ app_keys Key.education /\ truthy (get pd key) = true
              /\ app_education pd = get pd key.
Proof.
  unfold app_education. intros H.
  destruct (truthy_or _ _ H) as [[Ht E]|[Ht E]]; rewrite E;
    [exists Key.education_school|exists Key.education];
    (split; [solve_elem|done]).
Qed.

(** What the title, e-mail and phone entries of a property set are, after
    the two loops. *)
Lemma lookup_ungated (sch : Schema) (pd : RawRecord) (age edu : value)
    (base : PropertySet) :
  (base = with_title pd ∅ \/ base = ∅) ->
  let props := rich_text_stores sch pd edu (select_stores sch pd age
                 (with_phone pd (with_email pd base))) in
  props !! Key.name = base !! Key.name
  /\ props !! Key.email
     = (if truthy (get pd Key.email) then Some (Email (get pd Key.email)) else None)
  /\ props !! Key.phone
     = (if truthy (get pd Key.phone)
        then Some (PhoneNumber (WebApp._format_phone (get pd Key.phone)))
        else None).
Proof.
  intros Hb props. subst props.
  assert (Hbase : forall k, k <> Key.name -> base !! k = None).
  { intros k Hk. destruct Hb as [-> | ->]; [|apply lookup_empty].
    unfold with_title. by rewrite lookup_insert_ne, lookup_empty. }
  split; [|split].
  - rewrite lookup_rich_text_stores_ne by distinct_keys.
    rewrite lookup_select_stores_ne by distinct_keys.
    rewrite lookup_with_phone_ne by distinct_keys.
    by rewrite lookup_with_email_ne by distinct_keys.
  - rewrite lookup_rich_text_stores_ne by distinct_keys.
    rewrite lookup_select_stores_ne by distinct_keys.
    rewrite lookup_with_phone_ne by distinct_keys.
    unfold with_email. destruct (truthy (get pd Key.email)); [apply lookup_insert_eq|].
    apply Hbase. distinct_keys.
  - rewrite lookup_rich_text_stores_ne by distinct_keys.
    rewrite lookup_select_stores_ne by distinct_keys.
    unfold with_phone. destruct (truthy (get pd Key.phone)); [apply lookup_insert_eq|].
    rewrite lookup_with_email_ne by distinct_keys.
    apply Hbase. distinct_keys.
Qed.

(** C2 (amended).  Every field of a built property set is either one of
    the three written without consulting the schema (the title, the e-mail
    address and the phone number), or a field whose value is present,
    non-null and non-empty in the record (for the web app, under the field's
    key or its older spelling), which the schema declares, with the kind the
    field is written under, the payload being of that kind.  The e-mail
    address and the phone number are written whenever the record's value is
    non-empty, whatever the schema declares, and are absent otherwise; the
    title is written by the web app always and by the résumé parser when the
    name is non-empty. *)
Theorem mapped_fields_gated {W} (self : WebApp.NotionUploader W) (sch : Schema)
    (pd : RawRecord) (props : PropertySet) :
  (FileToNotion._build_properties pd sch = Ok props ->
   (forall f p, props !! f = Some p ->
      ungated FileToNotion._format_phone pd f p \/ schema_gated file_keys sch pd f p)
   /\ props !! Key.name
      = (if truthy (get pd Key.name)
         then Some (Title (str (get pd Key.name))) else None)
   /\ props !! Key.email
      = (if truthy (get pd Key.email) then Some (Email (get pd Key.email)) else None)
   /\ props !! Key.phone
      = (if truthy (get pd Key.phone)
         then Some (PhoneNumber (FileToNotion._format_phone (get pd Key.phone)))
         else None))
  /\ (WebApp.db_info self = Some sch ->
      WebApp._build_properties self pd = Ok props ->
      (forall f p, props !! f = Some p ->
         ungated WebApp._format_phone pd f p \/ schema_gated app_keys sch pd f p)
      /\ props !! Key.name = Some (Title (str (get pd Key.name)))
      /\ props !! Key.email
         = (if truthy (get pd Key.email) then Some (Email (get pd Key.email)) else None)
      /\ props !! Key.phone
         = (if truthy (get pd Key.phone)
            then Some (PhoneNumber (WebApp._format_phone (get pd Key.phone)))
            else None)).
Proof.
  split.
  - rewrite file_build_normal. intros [= <-]. unfold file_properties. split.
    + intros f p Hf.
      apply (lookup_stores_inv file_keys) in Hf as [Hf|Hf]; [left|by right|..].
      * eapply lookup_base_inv; [|exact Hf].
        destruct (truthy (get pd Key.name)); [by left|by right].
      * apply file_keys_source.
      * apply file_keys_source.
      * intros g _. apply list_elem_of_here.
    + destruct (lookup_ungated sch pd (get pd Key.age) (get pd Key.education)
                  (if truthy (get pd Key.name) then with_title pd ∅ else ∅))
        as (Hn & He & Hp).
      { destruct (truthy (get pd Key.name)); [by left|by right]. }
      split; [|by split]. rewrite Hn.
      destruct (truthy (get pd Key.name)); [apply lookup_insert_eq|apply lookup_empty].
  - intros Hdb Hb. destruct (app_build_ok_name _ _ _ Hb) as [n Hn].
    rewrite (app_build_normal self sch pd n Hdb Hn) in Hb.
    injection Hb as <-. unfold app_properties. split.
    + intros f p Hf.
      apply (lookup_stores_inv app_keys) in Hf as [Hf|Hf]; [left|by right|..].
      * eapply lookup_base_inv; [|exact Hf]. by left.
      * apply app_age_source.
      * apply app_education_source.
      * intros g Hg.
        repeat (apply elem_of_cons in Hg as [->|Hg]; [solve_elem|]).
        by apply elem_of_nil in Hg.
    + destruct (lookup_ungated sch pd (app_age pd) (app_education pd)
                  (with_title pd ∅)) as (Hn' & He & Hp); [by left|].
      split; [|by split]. rewrite Hn'. apply lookup_insert_eq.
Qed.

(** ** The record uploader *)

(** The four ways [upload_person] ends; it returns a pair in each. *)
Lemma upload_person_cases {W} (self : WebApp.NotionUploader W) (w : W) (pd : RawRecord) :
  (truthy (get pd Key.name) = false
   /\ WebApp.upload_person self w pd = (w, Ok (false, WebApp.msg_no_name)))
  \/ (truthy (get pd Key.name) = true
      /\ exists e, WebApp._build_properties self pd = Raise e
         /\ WebApp.upload_person self w pd
            = (w, Ok (false, WebApp.msg_upload_failed ++ str_exn e)))
  \/ (truthy (get pd Key.name) = true
      /\ exists props w' e, WebApp._build_properties self pd = Ok props
         /\ pages_create (WebApp.notion self) w (WebApp.database_id self) props
            = (w', Raise e)
         /\ WebApp.upload_person self w pd
            = (w', Ok (false, WebApp.msg_upload_failed ++ str_exn e)))
  \/ (truthy (get pd Key.name) = true
      /\ exists props w' page, WebApp._build_properties self pd = Ok props
         /\ pages_create (WebApp.notion self) w (WebApp.database_id self) props
            = (w', Ok page)
         /\ WebApp.upload_person self w pd
            = (w', Ok (true, quote ++ str (get pd Key.name) ++ WebApp.msg_uploaded))).
Proof.
  unfold WebApp.upload_person.
  destruct (truthy (get pd Key.name)) eqn:Hn; cbn [negb]; [|by left].
  right. destruct (WebApp._build_properties self pd) as [props|e] eqn:Hb.
  - right.
    destruct (pages_create _ w _ props) as [w' [page|e]] eqn:Hc.
    + right. split; [done|]. exists props, w', page.
      rewrite (getitem_truthy _ _ Hn). done.
    + left. split; [done|]. by exists props, w', e.
  - left. split; [done|]. by exists e.
Qed.

Lemma upload_person_returns {W} (self : WebApp.NotionUploader W) (w : W) (pd : RawRecord) :
  exists w' success message,
    WebApp.upload_person self w pd = (w', Ok (success, message)).
Proof.
  destruct (upload_person_cases self w pd)
    as [[_ H]|[(_ & e & _ & H)|[(_ & p & w' & e & _ & _ & H)|(_ & p & w' & g & _ & _ & H)]]];
    rewrite H; eauto.
Qed.

Lemma startswith_app (x b : pystr) : startswith x (x ++ b) = true.
Proof. induction x as [|c x IH]; [done|]. cbn. by rewrite N.eqb_refl. Qed.

Lemma contains_app (a x b : pystr) : contains x (a ++ x ++ b) = true.
Proof.
  induction a as [|c a IH].
  - cbn [app]. destruct (x ++ b) eqn:E; cbn [contains]; rewrite <- E;
      by rewrite startswith_app.
  - cbn [app contains]. rewrite IH. apply orb_true_r.
Qed.



(** ** The schema introspector *)

(** C7, as the specification states it, fails: a failed retrieval is caught
    where it happens.  [test_connection] returns a failure pair and
    [upload_to_notion] returns [None]; neither raises to its caller. *)
Lemma connection_failure_is_caught :
  (databases_retrieve down_client tt sample_db).2 = Raise (APIError (u "boom"))
  /\ (WebApp.test_connection down_uploader tt).2 = Ok (false, u "연결 실패: boom")
  /\ (FileToNotion.upload_to_notion down_client tt rec_name_only sample_db).2
     = Ok FileToNotion.ReturnNone.
Proof. repeat split; vm_compute; reflexivity. Qed.

(** C7 (amended).  [test_connection] never raises.  When the retrieval
    fails, for whatever reason, it returns the pair of [False] and the
    message "연결 실패: " followed by the stringified underlying error, which
    the message therefore contains, and leaves the uploader as it was; when
    the retrieval succeeds it stores the retrieved schema and returns
    [True]. *)
Theorem test_connection_reports {W} (self : WebApp.NotionUploader W) (w : W) :
  match databases_retrieve (WebApp.notion self) w (WebApp.database_id self) with
  | (w', Ok info) =>
    WebApp.test_connection self w
    = (w', WebApp.mkUploader (WebApp.notion self) (WebApp.database_id self) (Some info),
       Ok (true, WebApp.msg_connected))
  | (w', Raise e) =>
    WebApp.test_connection self w
    = (w', self, Ok (false, WebApp.msg_connect_failed ++ str_exn e))
    /\ contains (str_exn e) (WebApp.msg_connect_failed ++ str_exn e) = true
  end.
Proof.
  unfold WebApp.test_connection.
  destruct (databases_retrieve _ w _) as [w' [info|e]]; [done|].
  split; [done|].
  rewrite <- (app_nil_r (str_exn e)) at 2. apply contains_app.
Qed.

(** ** The batch loop *)


Lemma count_success_app (a b : list pystr) :
  count_success (a ++ b) = (count_success a + count_success b)%nat.
Proof. unfold count_success. by rewrite filter_app, length_app. Qed.

Lemma count_success_line (success : bool) (message : pystr) :
  count_success [log_line success message] = if success then 1%nat else 0%nat.
Proof. by destruct success. Qed.


Lemma upload_loop_app {W} (uploader : WebApp.NotionUploader W) (l1 l2 : list RawRecord) :
  forall (w : W) (n : nat) (log : list pystr),
  WebApp.upload_loop uploader (l1 ++ l2) w n log
  = match WebApp.upload_loop uploader l1 w n log with
    | (w1, Ok (n1, log1)) => WebApp.upload_loop uploader l2 w1 n1 log1
    | (w1, Raise e) => (w1, Raise e)
    end.
Proof.
  induction l1 as [|pd rest IH]; intros w n log; [done|].
  cbn [app WebApp.upload_loop].
  destruct (WebApp.upload_person uploader w pd) as [w1 [[s m]|e]]; [|done].
  destruct s; apply IH.
Qed.


(** ** The sample person *)

Lemma sample_person_mapped :
  WebApp._build_properties (connected sample_schema) sample_person
  = Ok sample_properties.
Proof. vm_compute. reflexivity. Qed.

Lemma sample_resume_mapped :
  FileToNotion._build_properties sample_resume sample_schema = Ok sample_properties.
Proof. vm_compute. reflexivity. Qed.

(** ** Stores that hit *)

Lemma lookup_select_store_hit (sch : Schema) (props : PropertySet) (f : pystr) (v : value) :
  truthy v = true -> sch !! f = Some Kind.select ->
  select_store sch props f v !! f = Some (Select (str v)).
Proof.
  intros Ht Hs. unfold select_store.
  rewrite Ht, bool_decide_eq_true_2 by done. apply lookup_insert_eq.
Qed.

Lemma lookup_select_store_miss (sch : Schema) (props : PropertySet) (f : pystr) (v : value) :
  truthy v = false -> select_store sch props f v = props.
Proof. intros Ht. unfold select_store. by rewrite Ht. Qed.

Lemma lookup_rich_text_store_hit (sch : Schema) (props : PropertySet) (f : pystr) (v : value) :
  truthy v = true -> sch !! f = Some Kind.rich_text ->
  rich_text_store sch props f v !! f = Some (RichText (str v)).
Proof.
  intros Ht Hs. unfold rich_text_store.
  rewrite Ht, bool_decide_eq_true_2 by done. apply lookup_insert_eq.
Qed.

Lemma lookup_rich_text_store_miss (sch : Schema) (props : PropertySet) (f : pystr) (v : value) :
  truthy v = false -> rich_text_store sch props f v = props.
Proof. intros Ht. unfold rich_text_store. by rewrite Ht. Qed.

Lemma lookup_rich_text_store_choices (sch : Schema) (props : PropertySet) (v : value) :
  truthy v = true -> sch !! Key.position = Some Kind.multi_select ->
  rich_text_store sch props Key.position v !! Key.position
  = Some (MultiSelect (position_choices v)).
Proof.
  intros Ht Hs. unfold rich_text_store. rewrite Ht, Hs. cbn [andb].
  rewrite bool_decide_eq_false_2 by (intros [= H]; revert H; distinct_keys).
  rewrite !bool_decide_eq_true_2 by done. apply lookup_insert_eq.
Qed.

(** ** The target position as a list of choices *)

(** C5, as the specification states it, fails for a position that is
    present and non-null but empty: no property is written, where the claim
    has the empty list of choices. *)
Lemma empty_position_is_omitted :
  rec_empty_position !! Key.position = Some (PStr [])
  /\ PStr [] <> PNone
  /\ sch_position_multi !! Key.position = Some Kind.multi_select
  /\ exists props,
       FileToNotion._build_properties rec_empty_position sch_position_multi = Ok props
       /\ WebApp._build_properties (connected sch_position_multi) rec_empty_position
          = Ok props
       /\ props !! Key.position = None.
Proof.
  split; [vm_compute; reflexivity|]. split; [discriminate|].
  split; [vm_compute; reflexivity|].
  exists {[ Key.name := Title (u "A") ]}. repeat split; vm_compute; reflexivity.
Qed.

(** C5 (amended).  For every record whose target position is non-null and
    non-empty, and every schema declaring that field with kind
    multi_select, both mappers set the property to the list of choices
    obtained by splitting the string form of the value on commas, trimming
    each segment and dropping the empty ones, in the order of the
    segments; "Backend, Frontend ,  " gives the two choices "Backend" and
    "Frontend". *)
Theorem position_multi_select {W} (self : WebApp.NotionUploader W) (sch : Schema)
    (pd : RawRecord) :
  truthy (get pd Key.position) = true ->
  sch !! Key.position = Some Kind.multi_select ->
  let choices :=
    filter (fun val => val <> [])
      (map strip (split comma (str (get pd Key.position)))) in
  (exists props, FileToNotion._build_properties pd sch = Ok props
     /\ props !! Key.position = Some (MultiSelect choices))
  /\ (WebApp.db_info self = Some sch -> is_Some (pd !! Key.name) ->
      exists props, WebApp._build_properties self pd = Ok props
        /\ props !! Key.position = Some (MultiSelect choices))
  /\ (str (get pd Key.position) = u "Backend, Frontend ,  " ->
      choices = [u "Backend"; u "Frontend"]).
Proof.
  intros Ht Hs choices. split; [|split].
  - exists (file_properties sch pd). split; [apply file_build_normal|].
    unfold file_properties, rich_text_stores.
    by apply lookup_rich_text_store_choices.
  - intros Hdb [n Hn]. exists (app_properties sch pd).
    split; [by apply (app_build_normal self sch pd n)|].
    unfold app_properties, rich_text_stores.
    by apply lookup_rich_text_store_choices.
  - intros E. subst choices. rewrite E. vm_compute. reflexivity.
Qed.

Lemma position_multi_select_witness :
  truthy (get sample_person Key.position) = true
  /\ sample_schema !! Key.position = Some Kind.multi_select
  /\ exists props,
       WebApp._build_properties (connected sample_schema) sample_person = Ok props
       /\ props !! Key.position = Some (MultiSelect [u "백엔드"; u "프론트엔드"]).
Proof.
  split; [vm_compute; reflexivity|]. split; [vm_compute; reflexivity|].
  refine (proj1 (proj2 (position_multi_select (connected sample_schema)
            sample_schema sample_person _ _)) eq_refl _).
  - vm_compute; reflexivity.
  - vm_compute; reflexivity.
  - vm_compute. eexists. reflexivity.
Defined.

(** ** The two spellings of the age and education keys *)

(** C6, as the specification states it, fails for [file to notion.py],
    which reads the age under one key only: a value supplied under the other
    spelling is not mapped. *)
Lemma old_age_key_is_ignored :
  rec_old_age_key !! Key.age_paren = Some (PStr (u "1990년"))
  /\ sch_age_select !! Key.age = Some Kind.select
  /\ (exists props,
        FileToNotion._build_properties rec_old_age_key sch_age_select = Ok props
        /\ props !! Key.age = None)
  /\ (exists props,
        WebApp._build_properties (connected sch_age_select) rec_old_age_key = Ok props
        /\ props !! Key.age = Some (Select (u "1990년"))).
Proof.
  split; [vm_compute; reflexivity|]. split; [vm_compute; reflexivity|]. split.
  - exists {[ Key.name := Title (u "A") ]}. split; vm_compute; reflexivity.
  - exists (<[ Key.age := Select (u "1990년") ]> {[ Key.name := Title (u "A") ]}).
    split; vm_compute; reflexivity.
Qed.

Lemma lookup_age (sch : Schema) (pd : RawRecord) (age edu : value) (base : PropertySet) :
  rich_text_stores sch pd edu (select_stores sch pd age base) !! Key.age
  = select_store sch base Key.age age !! Key.age.
Proof.
  rewrite lookup_rich_text_stores_ne by distinct_keys.
  unfold select_stores. by rewrite lookup_select_store_ne by distinct_keys.
Qed.

Lemma lookup_education (sch : Schema) (pd : RawRecord) (edu : value) (base : PropertySet) :
  rich_text_stores sch pd edu base !! Key.education
  = rich_text_store sch
      (rich_text_store sch base Key.career (get pd Key.career))
      Key.education edu !! Key.education.
Proof.
  unfold rich_text_stores. by rewrite !lookup_rich_text_store_ne by distinct_keys.
Qed.

Lemma lookup_base_other (pd : RawRecord) (base : PropertySet) (k : pystr) :
  (base = with_title pd ∅ \/ base = ∅) ->
  k <> Key.name -> k <> Key.email -> k <> Key.phone ->
  with_phone pd (with_email pd base) !! k = None.
Proof.
  intros Hb H1 H2 H3.
  rewrite lookup_with_phone_ne, lookup_with_email_ne by done.
  destruct Hb as [-> | ->]; [|apply lookup_empty].
  unfold with_title. by rewrite lookup_insert_ne, lookup_empty.
Qed.

(** C6 (amended).  The web app accepts both spellings of the age key and of
    the education key: when the value under either spelling is non-empty
    and the schema declares the field with the matching kind, the property
    is set, from the spelling with parentheses (resp. with the school) when
    that one is non-empty and from the other spelling otherwise.  The
    résumé parser reads one spelling only, "나이/탄생연도" and
    "최종학력(전공)": a value under that key is mapped, and without one the
    property is not written, whatever the other spelling holds. *)
Theorem alias_keys {W} (self : WebApp.NotionUploader W) (sch : Schema) (pd : RawRecord) :
  sch !! Key.age = Some Kind.select ->
  sch !! Key.education = Some Kind.rich_text ->
  (WebApp.db_info self = Some sch -> is_Some (pd !! Key.name) ->
   exists props, WebApp._build_properties self pd = Ok props
     /\ (truthy (get pd Key.age_paren) = true \/ truthy (get pd Key.age) = true ->
         props !! Key.age
         = Some (Select (str (or_ (get pd Key.age_paren) (get pd Key.age)))))
     /\ (truthy (get pd Key.education_school) = true
         \/ truthy (get pd Key.education) = true ->
         props !! Key.education
         = Some (RichText (str (or_ (get pd Key.education_school)
                                    (get pd Key.education))))))
  /\ (exists props, FileToNotion._build_properties pd sch = Ok props
        /\ props !! Key.age
           = (if truthy (get pd Key.age)
              then Some (Select (str (get pd Key.age))) else None)
        /\ props !! Key.education
           = (if truthy (get pd Key.education)
              then Some (RichText (str (get pd Key.education))) else None)).
Proof.
  intros Hage Hedu. split.
  - intros Hdb [n Hn]. exists (app_properties sch pd).
    split; [by apply (app_build_normal self sch pd n)|].
    unfold app_properties. split.
    + intros Ht. rewrite lookup_age. apply lookup_select_store_hit; [|done].
      unfold app_age, or_. destruct (truthy (get pd Key.age_paren)) eqn:E; [done|].
      by destruct Ht.
    + intros Ht. rewrite lookup_education.
      apply lookup_rich_text_store_hit; [|done].
      unfold app_education, or_.
      destruct (truthy (get pd Key.education_school)) eqn:E; [done|].
      by destruct Ht.
  - exists (file_properties sch pd). split; [apply file_build_normal|].
    assert (Hbase : forall k, k <> Key.name -> k <> Key.email -> k <> Key.phone ->
      with_phone pd (with_email pd
        (if truthy (get pd Key.name) then with_title pd ∅ else ∅)) !! k = None).
    { intros k. apply lookup_base_other.
      destruct (truthy (get pd Key.name)); [by left|by right]. }
    unfold file_properties. split.
    + rewrite lookup_age. destruct (truthy (get pd Key.age)) eqn:E.
      * by apply lookup_select_store_hit.
      * rewrite lookup_select_store_miss by done. apply Hbase; distinct_keys.
    + rewrite lookup_education. destruct (truthy (get pd Key.education)) eqn:E.
      * by apply lookup_rich_text_store_hit.
      * rewrite lookup_rich_text_store_miss by done.
        rewrite lookup_rich_text_store_ne by distinct_keys.
        rewrite lookup_select_stores_ne by distinct_keys.
        apply Hbase; distinct_keys.
Qed.

Lemma alias_keys_witness :
  sample_schema !! Key.age = Some Kind.select
  /\ sample_schema !! Key.education = Some Kind.rich_text
  /\ truthy (get sample_person Key.age_paren) = true
  /\ truthy (get sample_person Key.education_school) = true
  /\ exists props,
       WebApp._build_properties (connected sample_schema) sample_person = Ok props
       /\ props !! Key.age = Some (Select (u "1990년"))
       /\ props !! Key.education = Some (RichText (u "서울대학교 컴퓨터공학과")).
Proof.
  assert (Ha : sample_schema !! Key.age = Some Kind.select)
    by (vm_compute; reflexivity).
  assert (He : sample_schema !! Key.education = Some Kind.rich_text)
    by (vm_compute; reflexivity).
  assert (Hn : is_Some (sample_person !! Key.name))
    by (vm_compute; eexists; reflexivity).
  assert (Hta : truthy (get sample_person Key.age_paren) = true)
    by (vm_compute; reflexivity).
  assert (Hte : truthy (get sample_person Key.education_school) = true)
    by (vm_compute; reflexivity).
  do 4 (split; [assumption|]).
  destruct (proj1 (alias_keys (connected sample_schema) sample_schema sample_person
                     Ha He) eq_refl Hn) as (props & Hb & H1 & H2).
  exists props. split; [exact Hb|]. split.
  - rewrite (H1 (or_introl Hta)). vm_compute. reflexivity.
  - rewrite (H2 (or_introl Hte)). vm_compute. reflexivity.
Defined.

(** ** The two mappers compared *)

(** C9, as the specification states it, fails for a name that is non-null
    but empty: the web app's mapper writes an empty title, the résumé
    parser's mapper writes none. *)
Lemma empty_name_separates_mappers :
  rec_empty_name !! Key.name = Some (PStr [])
  /\ PStr [] <> PNone
  /\ rec_empty_name !! Key.age_paren = None
  /\ rec_empty_name !! Key.education_school = None
  /\ WebApp._build_properties (connected ∅) rec_empty_name
     = Ok {[ Key.name := Title [] ]}
  /\ FileToNotion._build_properties rec_empty_name ∅ = Ok ∅
  /\ ({[ Key.name := Title [] ]} : PropertySet) !! Key.name <> (∅ : PropertySet) !! Key.name.
Proof.
  split; [vm_compute; reflexivity|]. split; [discriminate|].
  do 4 (split; [vm_compute; reflexivity|]).
  vm_compute. discriminate.
Qed.

(** C9 (amended).  For every record whose name is non-null and non-empty and
    which holds no usable value under the older spellings "나이(탄생연도)"
    and "최종학력(학교-전공)", and for every schema, the two mappers return the
    same property set. *)
Theorem mappers_agree {W} (self : WebApp.NotionUploader W) (sch : Schema)
    (pd : RawRecord) :
  WebApp.db_info self = Some sch ->
  truthy (get pd Key.name) = true ->
  truthy (get pd Key.age_paren) = false ->
  truthy (get pd Key.education_school) = false ->
  WebApp._build_properties self pd = FileToNotion._build_properties pd sch
  /\ exists props, FileToNotion._build_properties pd sch = Ok props.
Proof.
  intros Hdb Hn Ha He. destruct (truthy_get _ _ Hn) as [Hp _].
  rewrite (app_build_normal self sch pd _ Hdb Hp), file_build_normal.
  split; [|by eexists]. f_equal.
  unfold app_properties, file_properties, app_age, app_education, or_.
  by rewrite Hn, Ha, He.
Qed.

Lemma mappers_agree_witness :
  WebApp._build_properties (connected sample_schema) sample_resume
  = FileToNotion._build_properties sample_resume sample_schema
  /\ exists props, FileToNotion._build_properties sample_resume sample_schema = Ok props.
Proof.
  apply (mappers_agree (connected sample_schema) sample_schema sample_resume eq_refl);
    vm_compute; reflexivity.
Defined.

(** ** The phone number's payload *)

(** C10, as it is stated, fails for a phone number that is present and
    non-null but empty: no phone property is written at all. *)
Lemma empty_phone_is_omitted :
  rec_empty_phone !! Key.phone = Some (PStr [])
  /\ PStr [] <> PNone
  /\ exists props,
       FileToNotion._build_properties rec_empty_phone ∅ = Ok props
       /\ WebApp._build_properties (connected ∅) rec_empty_phone = Ok props
       /\ props !! Key.phone = None.
Proof.
  split; [vm_compute; reflexivity|]. split; [discriminate|].
  exists {[ Key.name := Title (u "A") ]}. repeat split; vm_compute; reflexivity.
Qed.

Lemma lookup_phone (sch : Schema) (pd : RawRecord) (age edu : value) (base : PropertySet) :
  (base = with_title pd ∅ \/ base = ∅) ->
  rich_text_stores sch pd edu (select_stores sch pd age
    (with_phone pd (with_email pd base))) !! Key.phone
  = if truthy (get pd Key.phone)
    then Some (PhoneNumber (WebApp._format_phone (get pd Key.phone)))
    else None.
Proof.
  intros Hb.
  rewrite lookup_rich_text_stores_ne by distinct_keys.
  rewrite lookup_select_stores_ne by distinct_keys.
  unfold with_phone. destruct (truthy (get pd Key.phone)); [apply lookup_insert_eq|].
  rewrite lookup_with_email_ne by distinct_keys.
  destruct Hb as [-> | ->]; [|apply lookup_empty].
  unfold with_title. rewrite lookup_insert_ne by distinct_keys. apply lookup_empty.
Qed.

(** The guarded store cannot fail, so the handler is never run. *)
Lemma phone_store_never_falls_back (properties : PropertySet) (phone : pystr) :
  try_except (setitem properties Key.phone (PhoneNumber phone))
    (fun _ => setitem properties Key.phone (RichText phone))
  = Ok (<[Key.phone := PhoneNumber phone]> properties).
Proof. reflexivity. Qed.

(** C10 (amended).  The rich-text fallback for the phone field is
    unreachable: the guarded assignment is a dictionary store, which cannot
    fail.  For every record and schema, in both programs, the built
    property set maps the phone field to the phone_number payload carrying
    the normalised string when the record's phone value is non-null and
    non-empty, has no phone field otherwise, and never maps it to a
    rich_text payload. *)
Theorem phone_fallback_unreachable {W} (self : WebApp.NotionUploader W) (sch : Schema)
    (pd : RawRecord) (props : PropertySet) :
  FileToNotion._build_properties pd sch = Ok props
  \/ (WebApp.db_info self = Some sch /\ WebApp._build_properties self pd = Ok props) ->
  props !! Key.phone
  = (if truthy (get pd Key.phone)
     then Some (PhoneNumber (WebApp._format_phone (get pd Key.phone)))
     else None)
  /\ (forall text, props !! Key.phone <> Some (RichText text))
  /\ (forall properties phone,
        try_except (setitem properties Key.phone (PhoneNumber phone))
          (fun _ => setitem properties Key.phone (RichText phone))
        = setitem properties Key.phone (PhoneNumber phone)).
Proof.
  intros H.
  assert (Hl : props !! Key.phone
    = if truthy (get pd Key.phone)
      then Some (PhoneNumber (WebApp._format_phone (get pd Key.phone)))
      else None).
  { destruct H as [H|[Hdb H]].
    - rewrite file_build_normal in H. injection H as <-.
      unfold file_properties. apply lookup_phone.
      destruct (truthy (get pd Key.name)); [by left|by right].
    - destruct (app_build_ok_name _ _ _ H) as [n Hn].
      rewrite (app_build_normal self sch pd n Hdb Hn) in H. injection H as <-.
      unfold app_properties. apply lookup_phone. by left. }
  split; [exact Hl|]. split; [|reflexivity].
  intros text. rewrite Hl. by destruct (truthy (get pd Key.phone)).
Qed.

Lemma phone_fallback_unreachable_witness :
  WebApp._build_properties (connected sample_schema) sample_person = Ok sample_properties
  /\ sample_properties !! Key.phone = Some (PhoneNumber (u "010-1234-5678"))
  /\ forall text, sample_properties !! Key.phone <> Some (RichText text).
Proof.
  assert (Hb : WebApp._build_properties (connected sample_schema) sample_person
               = Ok sample_properties) by (vm_compute; reflexivity).
  split; [exact Hb|]. split; [vm_compute; reflexivity|].
  exact (proj1 (proj2 (phone_fallback_unreachable (connected sample_schema)
           sample_schema sample_person sample_properties
           (or_intror (conj eq_refl Hb))))).
Defined.

(** ** The sample person, field by field *)

Lemma mapped_fields_gated_witness :
  sample_properties !! Key.position = Some (MultiSelect [u "백엔드"; u "프론트엔드"])
  /\ (ungated WebApp._format_phone sample_person Key.position
        (MultiSelect [u "백엔드"; u "프론트엔드"])
      \/ schema_gated app_keys sample_schema sample_person Key.position
           (MultiSelect [u "백엔드"; u "프론트엔드"]))
  /\ sample_properties !! Key.email = Some (Email (PStr (u "hong@example.com")))
  /\ sample_properties !! Key.phone = Some (PhoneNumber (u "010-1234-5678")).
Proof.
  assert (Hl : sample_properties !! Key.position
               = Some (MultiSelect [u "백엔드"; u "프론트엔드"]))
    by (vm_compute; reflexivity).
  destruct (proj2 (mapped_fields_gated (connected sample_schema) sample_schema
                     sample_person sample_properties)
              eq_refl sample_person_mapped) as (Hall & _ & He & Hp).
  split; [exact Hl|]. split; [exact (Hall _ _ Hl)|]. split.
  - rewrite He. vm_compute. reflexivity.
  - rewrite Hp. vm_compute. reflexivity.
Defined.

(** ** The phone normaliser on examples *)

Example format_phone_plain :
  WebApp._format_phone (PStr (u "01012345678")) = u "010-1234-5678".
Proof. vm_compute. reflexivity. Qed.

Example format_phone_spaced :
  WebApp._format_phone (PStr (u "(010) 1234 5678")) = u "010-1234-5678".
Proof. vm_compute. reflexivity. Qed.

Example format_phone_landline :
  WebApp._format_phone (PStr (u "02-123-4567")) = u "02-123-4567".
Proof. vm_compute. reflexivity. Qed.

Example format_phone_empty : WebApp._format_phone (PStr []) = [].
Proof. reflexivity. Qed.

(** ** A batch with a nameless record and a failed upload *)

Example batch_goes_on_after_failures :
  WebApp.upload_list flaky_uploader 0%nat
    [rec_name_only; rec_email_only; rec_name_only; rec_name_only]
  = (3%nat,
     Ok (2%nat,
         [ u "✅ 'A' 업로드 완료";
           u "❌ 이름이 없는 데이터입니다.";
           u "❌ 업로드 실패: boom";
           u "✅ 'A' 업로드 완료" ])).
Proof. vm_compute. reflexivity. Qed.

(** * Further properties *)

(** ** Splitting, joining and trimming *)

Lemma join_cons (sep x y : pystr) (l : list pystr) :
  join sep (x :: y :: l) = x ++ sep ++ join sep (y :: l).
Proof. reflexivity. Qed.

Lemma split_not_nil (sep : N) (s : pystr) : split sep s <> [].
Proof.
  destruct s as [|c s]; [done|]. cbn.
  destruct (c =? sep); [done|]. by destruct (split sep s).
Qed.

Lemma split_cons_sep (sep : N) (s : pystr) : split sep (sep :: s) = [] :: split sep s.
Proof. cbn. by rewrite N.eqb_refl. Qed.

Lemma split_cons_other (sep c : N) (s : pystr) :
  c <> sep ->
  exists w ws, split sep s = w :: ws /\ split sep (c :: s) = (c :: w) :: ws.
Proof.
  intros Hc. cbn. rewrite (proj2 (N.eqb_neq c sep) Hc).
  destruct (split sep s) as [|w ws] eqn:E; [by apply split_not_nil in E|].
  by exists w, ws.
Qed.

Lemma split_segments_free (sep : N) (s : pystr) :
  Forall (fun seg => sep ∉ seg) (split sep s).
Proof.
  induction s as [|c s IH].
  - repeat constructor. apply not_elem_of_nil.
  - destruct (N.eq_dec c sep) as [->|Hc].
    + rewrite split_cons_sep. constructor; [apply not_elem_of_nil|done].
    + destruct (split_cons_other sep c s Hc) as (w & ws & E & ->).
      rewrite E in IH. apply Forall_cons in IH as [Hw Hws].
      constructor; [|done]. rewrite elem_of_cons. intros [?|?]; [congruence|done].
Qed.

Lemma split_free (sep : N) (a : pystr) : sep ∉ a -> split sep a = [a].
Proof.
  induction a as [|c a IH]; [done|]. intros H.
  apply not_elem_of_cons in H as [Hc Ha].
  destruct (split_cons_other sep c a) as (w & ws & E & ->); [done|].
  rewrite (IH Ha) in E. by injection E as <- <-.
Qed.

Lemma split_app (sep : N) (a rest : pystr) :
  sep ∉ a -> split sep (a ++ sep :: rest) = a :: split sep rest.
Proof.
  induction a as [|c a IH]; intros H.
  - apply split_cons_sep.
  - apply not_elem_of_cons in H as [Hc Ha]. cbn [app].
    destruct (split_cons_other sep c (a ++ sep :: rest)) as (w & ws & E & ->); [done|].
    rewrite (IH Ha) in E. by injection E as <- <-.
Qed.

Lemma split_join (sep : N) (l : list pystr) :
  l <> [] -> Forall (fun seg => sep ∉ seg) l -> split sep (join [sep] l) = l.
Proof.
  induction l as [|x l IH]; [done|]. intros _ H.
  apply Forall_cons in H as [Hx Hl].
  destruct l as [|y l]; [by apply split_free|].
  rewrite join_cons. cbn [app]. rewrite split_app by done. f_equal. by apply IH.
Qed.

(** Joining with ", " and splitting on "," leaves a space before every
    segment but the first. *)
Lemma split_join_comma_space (x : pystr) (l : list pystr) :
  Forall (fun seg => comma ∉ seg) (x :: l) ->
  split comma (join FileToNotionMain.comma_space (x :: l)) = x :: map (cons space) l.
Proof.
  revert x. induction l as [|y l IH]; intros x H.
  - apply Forall_cons in H as [Hx _]. by apply split_free.
  - apply Forall_cons in H as [Hx Hl]. rewrite join_cons.
    unfold FileToNotionMain.comma_space at 1. cbn [app].
    rewrite split_app by done. f_equal.
    destruct (split_cons_other comma space
                (join FileToNotionMain.comma_space (y :: l)))
      as (w & ws & E & ->); [discriminate|].
    rewrite (IH y Hl) in E. by injection E as <- <-.
Qed.

Lemma lstrip_elem (c : N) (s : pystr) : c ∈ lstrip s -> c ∈ s.
Proof.
  induction s as [|a s IH]; [done|]. cbn [lstrip].
  destruct (isspace a); [|done]. intros H. apply elem_of_cons. right. by apply IH.
Qed.

Lemma strip_elem (c : N) (s : pystr) : c ∈ strip s -> c ∈ s.
Proof.
  unfold strip, rstrip. rewrite list_elem_of_In, <- in_rev, <- list_elem_of_In.
  intros H. apply lstrip_elem in H.
  rewrite list_elem_of_In, <- in_rev, <- list_elem_of_In in H.
  by apply lstrip_elem.
Qed.

Lemma lstrip_length (s : pystr) : (length (lstrip s) <= length s)%nat.
Proof.
  induction s as [|a s IH]; [done|]. cbn [lstrip].
  destruct (isspace a); cbn [length]; lia.
Qed.

(** A string is left alone by [lstrip] exactly when it does not start with
    white space. *)
Lemma lstrip_fixed (s : pystr) :
  lstrip s = s <-> match s with [] => True | c :: _ => isspace c = false end.
Proof.
  destruct s as [|c s]; [done|]. cbn [lstrip]. destruct (isspace c) eqn:E; [|done].
  split; [|done]. intros H. pose proof (lstrip_length s) as Hl.
  rewrite H in Hl. cbn [length] in Hl. lia.
Qed.

Lemma lstrip_idem (s : pystr) : lstrip (lstrip s) = lstrip s.
Proof.
  induction s as [|c s IH]; [done|]. cbn [lstrip].
  destruct (isspace c) eqn:E; [done|]. cbn [lstrip]. by rewrite E.
Qed.

Lemma lstrip_space (c : N) (s : pystr) : isspace c = true -> lstrip (c :: s) = lstrip s.
Proof. intros H. cbn [lstrip]. by rewrite H. Qed.

(** [lstrip] takes a prefix of white space away. *)
Lemma lstrip_prefix (s : pystr) :
  exists ws, s = ws ++ lstrip s /\ Forall (fun c => isspace c = true) ws.
Proof.
  induction s as [|c s (ws & E & Hws)]; [by exists []|].
  cbn [lstrip]. destruct (isspace c) eqn:Hc; [|by exists []].
  exists (c :: ws). split; [by rewrite E at 1|by constructor].
Qed.

Lemma lstrip_app_spaces (ws t : pystr) :
  Forall (fun c => isspace c = true) ws -> lstrip (ws ++ t) = lstrip t.
Proof.
  induction 1 as [|c ws Hc _ IH]; [done|]. cbn [app lstrip]. by rewrite Hc.
Qed.

Lemma rstrip_idem (s : pystr) : rstrip (rstrip s) = rstrip s.
Proof. unfold rstrip. by rewrite rev_involutive, lstrip_idem. Qed.

(** [rstrip] keeps the start of a string that [lstrip] leaves alone. *)
Lemma lstrip_rstrip (t : pystr) : lstrip t = t -> lstrip (rstrip t) = rstrip t.
Proof.
  intros Ht. unfold rstrip.
  destruct (lstrip_prefix (rev t)) as (ws & E & Hws).
  assert (Et : t = rev (lstrip (rev t)) ++ rev ws).
  { rewrite <- rev_app_distr, <- E. by rewrite rev_involutive. }
  apply lstrip_fixed. destruct (rev (lstrip (rev t))) as [|c r] eqn:Er; [done|].
  apply lstrip_fixed in Ht. rewrite Et in Ht. exact Ht.
Qed.

Lemma strip_idem (s : pystr) : strip (strip s) = strip s.
Proof.
  unfold strip. rewrite (lstrip_rstrip (lstrip s)) by apply lstrip_idem.
  apply rstrip_idem.
Qed.

Lemma strip_space (s : pystr) : strip (space :: s) = strip s.
Proof. reflexivity. Qed.

(** ** More on the phone normaliser *)

Lemma digits_formatted (d : pystr) :
  Forall (fun c => isdigit c = true) d ->
  digits (take 3 d ++ [hyphen] ++ take 4 (drop 3 d) ++ [hyphen] ++ drop 7 d) = d.
Proof.
  intros Hall. rewrite !digits_app, digits_hyphen.
  rewrite !digits_fixed
    by (repeat first [apply Forall_take | apply Forall_drop]; exact Hall).
  cbn [app].
  replace (drop 7 d) with (drop 4 (drop 3 d)) by (by rewrite drop_drop).
  by rewrite !take_drop.
Qed.

(** The two ways the normaliser ends, for any value. *)
Lemma format_phone_cases (v : value) :
  let d := digits (str v) in
  (length d = 11%nat /\ startswith prefix_010 d = true
   /\ WebApp._format_phone v
      = take 3 d ++ [hyphen] ++ take 4 (drop 3 d) ++ [hyphen] ++ drop 7 d)
  \/ ((length d =? 11)%nat && startswith prefix_010 d = false
      /\ WebApp._format_phone v = str v).
Proof.
  intros d.
  assert (Hout : WebApp._format_phone v =
    if (length d =? 11)%nat && startswith prefix_010 d
    then take 3 d ++ [hyphen] ++ take 4 (drop 3 d) ++ [hyphen] ++ drop 7 d
    else str v) by reflexivity.
  destruct ((length d =? 11)%nat && startswith prefix_010 d) eqn:E; [left|by right].
  apply andb_true_iff in E as [Hl Hp]. apply Nat.eqb_eq in Hl. done.
Qed.

(** X2.  The normaliser never changes the digits of its input: the digit
    sequence of the result is that of the input's string form.  The result
    is that string form itself or a string of exactly thirteen characters. *)
Theorem format_phone_keeps_digits (v : value) :
  digits (WebApp._format_phone v) = digits (str v)
  /\ digits (FileToNotion._format_phone v) = digits (str v)
  /\ (WebApp._format_phone v = str v \/ length (WebApp._format_phone v) = 13%nat).
Proof.
  change FileToNotion._format_phone with WebApp._format_phone.
  destruct (format_phone_cases v) as [(Hl & Hp & ->)|[_ ->]]; [|by auto].
  rewrite digits_formatted by apply digits_are_digits.
  split; [done|]. split; [done|]. right.
  rewrite !length_app, !length_take, !length_drop. cbn [length]. lia.
Qed.

(** X1.  Normalising twice is normalising once, in both programs: a
    normalised number is left as it is. *)
Theorem format_phone_idempotent (v : value) :
  WebApp._format_phone (PStr (WebApp._format_phone v)) = WebApp._format_phone v
  /\ FileToNotion._format_phone (PStr (FileToNotion._format_phone v))
     = FileToNotion._format_phone v.
Proof.
  change FileToNotion._format_phone with WebApp._format_phone.
  cut (WebApp._format_phone (PStr (WebApp._format_phone v)) = WebApp._format_phone v);
    [done|].
  destruct (format_phone_cases v) as [(Hl & Hp & E)|[_ E]].
  - destruct (format_phone_cases (PStr (WebApp._format_phone v)))
      as [(_ & _ & E')|[Hno _]].
    + rewrite E'. cbn [str]. rewrite E at 1 2 3.
      rewrite digits_formatted by apply digits_are_digits. by rewrite E.
    + exfalso. cbn [str] in Hno. rewrite E in Hno.
      rewrite digits_formatted in Hno by apply digits_are_digits.
      rewrite Hp, (proj2 (Nat.eqb_eq _ _) Hl) in Hno. discriminate Hno.
  - rewrite E at 1. reflexivity.
Qed.

(** ** The choices of a multi-select property *)

Lemma trimmed_segments_clean (s : pystr) :
  Forall (fun seg => (comma ∉ seg) /\ strip seg = seg) (map strip (split comma s)).
Proof.
  apply Forall_forall. intros x Hx.
  apply list_elem_of_In, in_map_iff in Hx as (seg & <- & Hseg).
  apply list_elem_of_In in Hseg.
  pose proof (split_segments_free comma s) as Hfree.
  rewrite Forall_forall in Hfree. split; [|apply strip_idem].
  intros Hc. apply (Hfree seg Hseg). by apply strip_elem.
Qed.

Lemma position_choices_clean (v : value) : Forall clean_choice (position_choices v).
Proof.
  unfold position_choices. apply Forall_forall. intros x Hx.
  apply list_elem_of_filter in Hx as [Hne Hin].
  pose proof (trimmed_segments_clean (str v)) as H.
  rewrite Forall_forall in H. destruct (H x Hin) as [Hc Hs]. done.
Qed.

Lemma expected_multi_select (f kind : pystr) :
  kind ∈ expected_kinds f -> kind <> Kind.select -> kind <> Kind.rich_text ->
  f = Key.position /\ kind = Kind.multi_select.
Proof.
  unfold expected_kinds. intros H Hs Hr.
  apply elem_of_app in H as [H|H].
  { case_bool_decide; [|by apply elem_of_nil in H].
    apply list_elem_of_singleton in H. done. }
  apply elem_of_app in H as [H|H].
  { case_bool_decide; [|by apply elem_of_nil in H].
    apply list_elem_of_singleton in H. done. }
  case_bool_decide; [|by apply elem_of_nil in H].
  apply list_elem_of_singleton in H. done.
Qed.

(** Any property a mapper wrote, as the two kinds of stores. *)
Lemma built_lookup_inv {W} (self : WebApp.NotionUploader W) (sch : Schema)
    (pd : RawRecord) (props : PropertySet) (f : pystr) (p : payload) :
  FileToNotion._build_properties pd sch = Ok props
  \/ (WebApp.db_info self = Some sch /\ WebApp._build_properties self pd = Ok props) ->
  props !! f = Some p ->
  ungated WebApp._format_phone pd f p
  \/ exists keys, schema_gated keys sch pd f p.
Proof.
  intros [Hb|[Hdb Hb]] Hf.
  - rewrite file_build_normal in Hb. injection Hb as <-.
    unfold file_properties in Hf.
    apply (lookup_stores_inv file_keys) in Hf as [Hf|Hf]; [left|right; by eexists|..].
    + eapply lookup_base_inv; [|exact Hf].
      destruct (truthy (get pd Key.name)); [by left|by right].
    + apply file_keys_source.
    + apply file_keys_source.
    + intros g _. apply list_elem_of_here.
  - destruct (app_build_ok_name _ _ _ Hb) as [n Hn].
    rewrite (app_build_normal self sch pd n Hdb Hn) in Hb.
    injection Hb as <-. unfold app_properties in Hf.
    apply (lookup_stores_inv app_keys) in Hf as [Hf|Hf]; [left|right; by eexists|..].
    + eapply lookup_base_inv; [|exact Hf]. by left.
    + apply app_age_source.
    + apply app_education_source.
    + intros g Hg.
      repeat (apply elem_of_cons in Hg as [->|Hg]; [solve_elem|]).
      by apply elem_of_nil in Hg.
Qed.

(** X3.  A multi-select payload is only ever written for the target
    position, under a schema that declares it multi_select, and every one
    of its choices is non-empty, holds no comma and has no white space at
    either end. *)
Theorem multi_select_is_clean {W} (self : WebApp.NotionUploader W) (sch : Schema)
    (pd : RawRecord) (props : PropertySet) (f : pystr) (names : list pystr) :
  FileToNotion._build_properties pd sch = Ok props
  \/ (WebApp.db_info self = Some sch /\ WebApp._build_properties self pd = Ok props) ->
  props !! f = Some (MultiSelect names) ->
  f = Key.position
  /\ sch !! Key.position = Some Kind.multi_select
  /\ Forall clean_choice names.
Proof.
  intros Hb Hf.
  destruct (built_lookup_inv self sch pd props f _ Hb Hf)
    as [[[_ E]|[(_ & _ & E)|(_ & _ & E)]]|(keys & key & v & kind & _ & _ & _ & _ & Hs & Hk & E)];
    try discriminate E.
  unfold payload_for in E.
  case_bool_decide as H1; [discriminate E|].
  case_bool_decide as H2; [discriminate E|].
  destruct (expected_multi_select f kind Hk H1 H2) as [-> ->].
  injection E as ->. split; [done|]. split; [done|]. apply position_choices_clean.
Qed.

Lemma multi_select_is_clean_witness :
  sample_properties !! Key.position = Some (MultiSelect [u "백엔드"; u "프론트엔드"])
  /\ sample_schema !! Key.position = Some Kind.multi_select
  /\ Forall clean_choice [u "백엔드"; u "프론트엔드"].
Proof.
  assert (Hl : sample_properties !! Key.position
               = Some (MultiSelect [u "백엔드"; u "프론트엔드"]))
    by (vm_compute; reflexivity).
  split; [exact Hl|].
  exact (proj2 (multi_select_is_clean (connected sample_schema) sample_schema
                  sample_person sample_properties Key.position _
                  (or_intror (conj eq_refl sample_person_mapped)) Hl)).
Defined.

(** ** The summary of the extracted data *)

Lemma map_strip_spaced (l : list pystr) :
  Forall (fun seg => strip seg = seg) l -> map strip (map (cons space) l) = l.
Proof.
  induction 1 as [|x l Hx _ IH]; [done|].
  cbn [map]. by rewrite strip_space, Hx, IH.
Qed.

(** Splitting and trimming what was trimmed and joined with ", " gives the
    trimmed segments back. *)
Lemma trim_join_trim (s : pystr) :
  map strip (split comma
    (join FileToNotionMain.comma_space (map strip (split comma s))))
  = map strip (split comma s).
Proof.
  pose proof (trimmed_segments_clean s) as H.
  destruct (map strip (split comma s)) as [|x l] eqn:E.
  { apply map_eq_nil in E. by apply split_not_nil in E. }
  rewrite split_join_comma_space.
  - apply Forall_cons in H as [[_ Hx] Hl]. cbn [map]. rewrite Hx. f_equal.
    apply map_strip_spaced. eapply Forall_impl; [exact Hl|]. by intros ? [_ ?].
  - eapply Forall_impl; [exact H|]. by intros ? [? _].
Qed.

(** X4.  For the skills and the position, the summary line shows a text
    that splits and trims into the same segments as the extracted value, so
    the position shown is mapped to the same choices as the position
    extracted; every line starts with the bulleted key. *)
Theorem summary_keeps_segments (key : pystr) (v : value) :
  v <> PNone ->
  exists text,
    FileToNotionMain.summary_line key v
    = Some (FileToNotionMain.bullet ++ key ++ FileToNotionMain.bullet_end ++ text)
    /\ map strip (split comma text) = map strip (split comma (str v))
    /\ position_choices (PStr text) = position_choices v.
Proof.
  intros Hv.
  assert (Hsame : exists text,
    FileToNotionMain.summary_line key v
    = Some (FileToNotionMain.bullet ++ key ++ FileToNotionMain.bullet_end ++ text)
    /\ map strip (split comma text) = map strip (split comma (str v))).
  { unfold FileToNotionMain.summary_line.
    destruct v as [|s|b t]; [done|..];
      repeat (destruct (_ && _));
      first [ by eexists; split; [reflexivity|apply trim_join_trim]
            | by eexists; split; [reflexivity|] ]. }
  destruct Hsame as (text & E & Hseg). exists text.
  split; [exact E|]. split; [exact Hseg|].
  unfold position_choices. cbn [str]. by rewrite Hseg.
Qed.

Lemma summary_keeps_segments_witness :
  FileToNotionMain.summary_line Key.position (PStr (u "Backend ,Frontend,  "))
  = Some (u "• **포지션**: Backend, Frontend, ")
  /\ position_choices (PStr (u "Backend, Frontend, "))
     = position_choices (PStr (u "Backend ,Frontend,  ")).
Proof.
  split; [vm_compute; reflexivity|].
  destruct (summary_keeps_segments Key.position (PStr (u "Backend ,Frontend,  ")))
    as (text & E & _ & Hc); [discriminate|].
  assert (Et : text = u "Backend, Frontend, ").
  { vm_compute in E. injection E as <-. vm_compute. reflexivity. }
  rewrite <- Et. exact Hc.
Defined.

(** ** Connecting, then reading the schema and uploading *)

(** X6.  Once [test_connection] has succeeded, uploading a record with a
    usable name makes exactly one create-page call, with the property set
    the mapper built, and fails only if that call raises: the result is the
    confirmation when the call returns and the prefixed error text when it
    raises. *)
Theorem upload_after_connection {W} (self self' : WebApp.NotionUploader W)
    (w0 w1 w : W) (message : pystr) (pd : RawRecord) :
  WebApp.test_connection self w0 = (w1, self', Ok (true, message)) ->
  truthy (get pd Key.name) = true ->
  exists props,
    WebApp._build_properties self' pd = Ok props
    /\ WebApp.upload_person self' w pd
       = match pages_create (WebApp.notion self) w (WebApp.database_id self) props with
         | (w', Ok _) =>
           (w', Ok (true, quote ++ str (get pd Key.name) ++ WebApp.msg_uploaded))
         | (w', Raise e) =>
           (w', Ok (false, WebApp.msg_upload_failed ++ str_exn e))
         end.
Proof.
  intros Ht Hn. unfold WebApp.test_connection in Ht.
  destruct (databases_retrieve _ w0 _) as [w' [info|e]]; [|discriminate Ht].
  injection Ht as _ <- _.
  destruct (truthy_get _ _ Hn) as [Hp _].
  exists (app_properties info pd).
  assert (Hb : WebApp._build_properties
                 (WebApp.mkUploader (WebApp.notion self) (WebApp.database_id self)
                    (Some info)) pd = Ok (app_properties info pd))
    by (by apply (app_build_normal _ info pd (get pd Key.name))).
  split; [exact Hb|].
  unfold WebApp.upload_person. rewrite Hn, Hb. cbn [negb WebApp.notion WebApp.database_id].
  destruct (pages_create _ w _ _) as [w2 [page|e]]; [|done].
  by rewrite (getitem_truthy _ _ Hn).
Qed.

Lemma upload_after_connection_witness :
  WebApp.test_connection (WebApp.mkUploader (ok_client sample_schema) sample_db None) tt
  = (tt, connected sample_schema, Ok (true, u "연결 성공!"))
  /\ truthy (get sample_person Key.name) = true
  /\ WebApp.upload_person (connected sample_schema) tt sample_person
     = (tt, Ok (true, u "'홍길동' 업로드 완료")).
Proof.
  assert (Ht : WebApp.test_connection
                 (WebApp.mkUploader (ok_client sample_schema) sample_db None) tt
               = (tt, connected sample_schema, Ok (true, u "연결 성공!")))
    by (vm_compute; reflexivity).
  assert (Hn : truthy (get sample_person Key.name) = true)
    by (vm_compute; reflexivity).
  split; [exact Ht|]. split; [exact Hn|].
  destruct (upload_after_connection _ _ tt tt tt _ sample_person Ht Hn)
    as (props & _ & ->).
  vm_compute. reflexivity.
Defined.

(** ** The web app's mapper without a schema *)

Lemma for_each_guarded {S} (body : S -> pystr * value -> result S) (e : exn) :
  (forall s f v, body s (f, v) = if truthy v then Raise e else Ok s) ->
  forall (l : list (pystr * value)) (s : S),
    for_each body s l
    = if existsb truthy (map snd l) then Raise e else Ok s.
Proof.
  intros Hbody. induction l as [|[f v] l IH]; intros s; [done|].
  cbn [for_each map snd existsb]. rewrite Hbody.
  destruct (truthy v); [done|]. cbn [mbind result_bind orb]. apply IH.
Qed.

Lemma unconnected_select_body {W} (self : WebApp.NotionUploader W) :
  WebApp.db_info self = None ->
  forall s f v, WebApp.select_body self s (f, v)
    = if truthy v then Raise (TypeError WebApp.msg_not_subscriptable) else Ok s.
Proof.
  intros H s f v. unfold WebApp.select_body, WebApp.db_properties. by rewrite H.
Qed.

Lemma unconnected_rich_text_body {W} (self : WebApp.NotionUploader W) :
  WebApp.db_info self = None ->
  forall s f v, WebApp.rich_text_body self s (f, v)
    = if truthy v then Raise (TypeError WebApp.msg_not_subscriptable) else Ok s.
Proof.
  intros H s f v. unfold WebApp.rich_text_body, WebApp.db_properties. by rewrite H.
Qed.

Lemma unconnected_build {W} (self : WebApp.NotionUploader W) (pd : RawRecord) (n : value) :
  WebApp.db_info self = None ->
  pd !! Key.name = Some n ->
  WebApp._build_properties self pd
  = if fills_gated_field pd
    then Raise (TypeError WebApp.msg_not_subscriptable)
    else Ok (base_properties pd).
Proof.
  intros Hdb Hname.
  destruct (getitem_present _ _ _ Hname) as [Hgi Hget].
  unfold WebApp._build_properties, base_properties, with_phone, with_email,
    with_title, fills_gated_field, app_age, app_education.
  rewrite Hgi, Hget. cbn [mbind result_bind].
  destruct (truthy (get pd Key.email)) eqn:He;
    destruct (truthy (get pd Key.phone)) eqn:Hp;
    rewrite ?(getitem_truthy _ _ He), ?(getitem_truthy _ _ Hp);
    cbn [mbind result_bind try_except setitem map snd existsb];
    rewrite !(for_each_guarded _ _ (unconnected_select_body self Hdb));
    cbn [map snd existsb];
    (destruct (truthy (or_ (get pd Key.age_paren) (get pd Key.age)));
       [reflexivity|]);
    (destruct (truthy (get pd Key.gender)); [reflexivity|]);
    cbn [orb mbind result_bind];
    rewrite !(for_each_guarded _ _ (unconnected_rich_text_body self Hdb));
    cbn [map snd existsb];
    match goal with |- context [if ?b then _ else _] => destruct b end;
    reflexivity.
Qed.

(** X7.  An uploader whose schema was never retrieved cannot map a record
    that fills any schema-gated field: the mapper raises the TypeError of
    subscripting [None], and [upload_person] reports it as a failed upload
    without calling the remote side.  A record that fills none of those
    fields is mapped to its title, e-mail and phone properties. *)
Theorem upload_without_schema {W} (self : WebApp.NotionUploader W) (w : W)
    (pd : RawRecord) :
  WebApp.db_info self = None ->
  truthy (get pd Key.name) = true ->
  WebApp._build_properties self pd
  = (if fills_gated_field pd
     then Raise (TypeError WebApp.msg_not_subscriptable)
     else Ok (base_properties pd))
  /\ (fills_gated_field pd = true ->
      WebApp.upload_person self w pd
      = (w, Ok (false, WebApp.msg_upload_failed ++ WebApp.msg_not_subscriptable))).
Proof.
  intros Hdb Hn. destruct (truthy_get _ _ Hn) as [Hp _].
  pose proof (unconnected_build self pd _ Hdb Hp) as Hb.
  split; [exact Hb|]. intros Hf. rewrite Hf in Hb.
  unfold WebApp.upload_person. by rewrite Hn, Hb.
Qed.

Lemma upload_without_schema_witness :
  fills_gated_field sample_person = true
  /\ WebApp.upload_person (WebApp.mkUploader down_client sample_db None) tt sample_person
     = (tt, Ok (false, u "업로드 실패: 'NoneType' object is not subscriptable")).
Proof.
  assert (Hf : fills_gated_field sample_person = true) by (vm_compute; reflexivity).
  split; [exact Hf|].
  refine (proj2 (upload_without_schema (WebApp.mkUploader down_client sample_db None)
                   tt sample_person eq_refl _) Hf).
  vm_compute. reflexivity.
Defined.

(** X8.  The web app's mapper raises a KeyError exactly when the record has
    no name key, and then the key named is "이름"; this holds with or
    without a retrieved schema. *)
Theorem key_error_iff_no_name {W} (self : WebApp.NotionUploader W) (pd : RawRecord)
    (k : pystr) :
  WebApp._build_properties self pd = Raise (KeyError k)
  <-> pd !! Key.name = None /\ k = Key.name.
Proof.
  split.
  - intros H. destruct (pd !! Key.name) as [n|] eqn:Hn.
    + exfalso. destruct (WebApp.db_info self) as [sch|] eqn:Hdb.
      * by rewrite (app_build_normal self sch pd n Hdb Hn) in H.
      * rewrite (unconnected_build self pd n Hdb Hn) in H.
        by destruct (fills_gated_field pd).
    + rewrite (app_build_no_name self pd Hn) in H. by injection H as <-.
  - intros [Hn ->]. by apply app_build_no_name.
Qed.

(** ** What the mappers read and what they write *)

Lemma select_store_ext (sch sch' : Schema) (props : PropertySet) (f : pystr) (v : value) :
  sch !! f = sch' !! f -> select_store sch props f v = select_store sch' props f v.
Proof. intros H. unfold select_store. by rewrite H. Qed.

Lemma rich_text_store_ext (sch sch' : Schema) (props : PropertySet) (f : pystr) (v : value) :
  sch !! f = sch' !! f -> rich_text_store sch props f v = rich_text_store sch' props f v.
Proof. intros H. unfold rich_text_store. by rewrite H. Qed.

Lemma get_ext (pd pd' : RawRecord) (k : pystr) :
  pd !! k = pd' !! k -> get pd k = get pd' k /\ getitem pd k = getitem pd' k.
Proof. intros H. unfold get, getitem. by rewrite H. Qed.

Lemma stores_ext (sch sch' : Schema) (pd pd' : RawRecord) (age edu : value)
    (base : PropertySet) :
  (forall f, f ∈ schema_read_keys -> sch !! f = sch' !! f) ->
  (forall k, k ∈ [Key.gender; Key.career; Key.employer; Key.duties; Key.skills;
                  Key.position] -> get pd k = get pd' k) ->
  rich_text_stores sch pd edu (select_stores sch pd age base)
  = rich_text_stores sch' pd' edu (select_stores sch' pd' age base).
Proof.
  intros Hsch Hget. unfold rich_text_stores, select_stores. cbv zeta.
  rewrite !(Hget Key.gender ltac:(solve_elem)), !(Hget Key.career ltac:(solve_elem)),
    !(Hget Key.employer ltac:(solve_elem)), !(Hget Key.duties ltac:(solve_elem)),
    !(Hget Key.skills ltac:(solve_elem)), !(Hget Key.position ltac:(solve_elem)).
  rewrite (select_store_ext sch sch' _ Key.age) by (apply Hsch; solve_elem).
  rewrite (select_store_ext sch sch' _ Key.gender) by (apply Hsch; solve_elem).
  rewrite (rich_text_store_ext sch sch' _ Key.career) by (apply Hsch; solve_elem).
  rewrite (rich_text_store_ext sch sch' _ Key.education) by (apply Hsch; solve_elem).
  rewrite (rich_text_store_ext sch sch' _ Key.employer) by (apply Hsch; solve_elem).
  rewrite (rich_text_store_ext sch sch' _ Key.duties) by (apply Hsch; solve_elem).
  rewrite (rich_text_store_ext sch sch' _ Key.skills) by (apply Hsch; solve_elem).
  rewrite (rich_text_store_ext sch sch' _ Key.position) by (apply Hsch; solve_elem).
  reflexivity.
Qed.

(** X9.  The mappers read a record only at the known keys and a schema
    only at the eight schema-gated fields.  The résumé parser's mapper
    gives the same result on two records that agree on the eleven keys of
    its extraction schema, whatever they hold under the two older key
    spellings or any other key, and on two schemas that agree on the eight
    fields.  The web app's mapper gives the same result on two uploaders
    whose retrieved schemas agree on the eight fields (or that both have
    none) and two records that agree on those eleven keys and the two older
    spellings. *)
Theorem mappers_read_known_keys {W} (self self' : WebApp.NotionUploader W)
    (sch sch' : Schema) (pd pd' : RawRecord) :
  (forall f, f ∈ schema_read_keys -> sch !! f = sch' !! f) ->
  ((forall k, k ∈ FileToNotionMain.resume_schema_keys -> pd !! k = pd' !! k) ->
   FileToNotion._build_properties pd sch = FileToNotion._build_properties pd' sch')
  /\ ((forall k, k ∈ app_read_keys -> pd !! k = pd' !! k) ->
      (WebApp.db_info self = Some sch /\ WebApp.db_info self' = Some sch')
      \/ (WebApp.db_info self = None /\ WebApp.db_info self' = None) ->
      WebApp._build_properties self pd = WebApp._build_properties self' pd').
Proof.
  intros Hsch. split.
  - intros Hpd.
    assert (Hget : forall k, k ∈ FileToNotionMain.resume_schema_keys ->
              get pd k = get pd' k)
      by (intros k Hk; by apply get_ext, Hpd).
    rewrite !file_build_normal. f_equal. unfold file_properties.
    rewrite (stores_ext sch sch' pd pd').
    + unfold with_phone, with_email, with_title.
      by rewrite !(Hget Key.name ltac:(solve_elem)), !(Hget Key.email ltac:(solve_elem)),
        !(Hget Key.phone ltac:(solve_elem)), !(Hget Key.age ltac:(solve_elem)),
        !(Hget Key.education ltac:(solve_elem)).
    + exact Hsch.
    + intros k Hk. apply Hget.
      repeat (apply elem_of_cons in Hk as [->|Hk]; [solve_elem|]).
      by apply elem_of_nil in Hk.
  - intros Hpd Hdb.
    assert (Hget : forall k, k ∈ app_read_keys -> get pd k = get pd' k)
      by (intros k Hk; by apply get_ext, Hpd).
    assert (Hbase : with_phone pd (with_email pd (with_title pd ∅))
                    = with_phone pd' (with_email pd' (with_title pd' ∅))).
    { unfold with_phone, with_email, with_title.
      by rewrite !(Hget Key.name ltac:(solve_elem)), !(Hget Key.email ltac:(solve_elem)),
        !(Hget Key.phone ltac:(solve_elem)). }
    assert (Hage : app_age pd = app_age pd').
    { unfold app_age.
      by rewrite (Hget Key.age ltac:(solve_elem)), (Hget Key.age_paren ltac:(solve_elem)). }
    assert (Hedu : app_education pd = app_education pd').
    { unfold app_education.
      by rewrite (Hget Key.education ltac:(solve_elem)),
        (Hget Key.education_school ltac:(solve_elem)). }
    pose proof (Hpd Key.name ltac:(solve_elem)) as Hname.
    destruct (pd !! Key.name) as [n|] eqn:Hn.
    + symmetry in Hname. destruct Hdb as [[Hs Hs']|[Hs Hs']].
      * rewrite (app_build_normal self sch pd n Hs Hn),
          (app_build_normal self' sch' pd' n Hs' Hname).
        f_equal. unfold app_properties.
        rewrite (stores_ext sch sch' pd pd'), Hbase, Hage, Hedu; [done|exact Hsch|].
        intros k Hk. apply Hget.
        repeat (apply elem_of_cons in Hk as [->|Hk]; [solve_elem|]).
        by apply elem_of_nil in Hk.
      * rewrite (unconnected_build self pd n Hs Hn),
          (unconnected_build self' pd' n Hs' Hname).
        unfold fills_gated_field, base_properties.
        by rewrite Hbase, Hage, Hedu, (Hget Key.gender ltac:(solve_elem)),
          (Hget Key.career ltac:(solve_elem)), (Hget Key.employer ltac:(solve_elem)),
          (Hget Key.duties ltac:(solve_elem)), (Hget Key.skills ltac:(solve_elem)),
          (Hget Key.position ltac:(solve_elem)).
    + symmetry in Hname.
      by rewrite (app_build_no_name self pd Hn), (app_build_no_name self' pd' Hname).
Qed.

Lemma mappers_read_known_keys_witness :
  sample_resume_old_keys !! Key.age_paren = Some (PStr (u "1980년"))
  /\ sample_resume !! Key.age_paren = None
  /\ sample_resume_old_keys !! u "메모" = Some (PStr (u "추천"))
  /\ FileToNotion._build_properties sample_resume_old_keys sample_schema_extended
     = FileToNotion._build_properties sample_resume sample_schema.
Proof.
  do 3 (split; [vm_compute; reflexivity|]).
  refine (proj1 (mappers_read_known_keys (connected sample_schema)
                   (connected sample_schema) sample_schema_extended sample_schema
                   sample_resume_old_keys sample_resume _) _).
  - intros k Hk. unfold sample_schema_extended. apply lookup_insert_ne.
    intros <-. revert Hk. vm_compute. intros Hk.
    repeat (apply elem_of_cons in Hk as [Hk|Hk]; [discriminate Hk|]).
    by apply elem_of_nil in Hk.
  - intros k Hk. unfold sample_resume_old_keys, sample_resume_annotated.
    rewrite !lookup_insert_ne; [done|..];
      intros <-; revert Hk; vm_compute; intros Hk;
      repeat (apply elem_of_cons in Hk as [Hk|Hk]; [discriminate Hk|]);
      by apply elem_of_nil in Hk.
Defined.

Lemma expected_kinds_known (f kind : pystr) :
  kind ∈ expected_kinds f -> f ∈ WebAppMain.displayed_names.
Proof.
  unfold expected_kinds. intros H.
  apply elem_of_app in H as [H|H].
  { case_bool_decide as Hf; [|by apply elem_of_nil in H].
    repeat (apply elem_of_cons in Hf as [->|Hf]; [solve_elem|]).
    by apply elem_of_nil in Hf. }
  apply elem_of_app in H as [H|H].
  { case_bool_decide as Hf; [|by apply elem_of_nil in H].
    repeat (apply elem_of_cons in Hf as [->|Hf]; [solve_elem|]).
    by apply elem_of_nil in Hf. }
  case_bool_decide as Hf; [|by apply elem_of_nil in H]. subst f. solve_elem.
Qed.

Lemma ungated_known (pd : RawRecord) (f : pystr) (p : payload) :
  ungated WebApp._format_phone pd f p -> f ∈ WebAppMain.displayed_names.
Proof. intros [[-> _]|[[-> _]|[-> _]]]; solve_elem. Qed.

(** X10.  Every field of a built property set is one of the eleven names the
    sidebar lists: the mappers never write a property under an older key
    spelling or under any other key of the record, with or without a
    retrieved schema. *)
Theorem mapped_keys_are_known {W} (self : WebApp.NotionUploader W) (sch : Schema)
    (pd : RawRecord) (props : PropertySet) (f : pystr) (p : payload) :
  FileToNotion._build_properties pd sch = Ok props
  \/ WebApp._build_properties self pd = Ok props ->
  props !! f = Some p ->
  f ∈ WebAppMain.displayed_names.
Proof.
  intros Hb Hf.
  assert (Hcases : exists sch0,
    FileToNotion._build_properties pd sch0 = Ok props
    \/ (WebApp.db_info self = Some sch0 /\ WebApp._build_properties self pd = Ok props)
    \/ props = base_properties pd).
  { destruct Hb as [Hb|Hb]; [exists sch; by left|].
    destruct (WebApp.db_info self) as [sch0|] eqn:Hdb; [exists sch0; right; by left|].
    exists sch. right. right.
    destruct (app_build_ok_name _ _ _ Hb) as [n Hn].
    rewrite (unconnected_build self pd n Hdb Hn) in Hb.
    destruct (fills_gated_field pd); [discriminate Hb|]. by injection Hb as <-. }
  destruct Hcases as (sch0 & [H|[H| ->]]).
  - destruct (built_lookup_inv self sch0 pd props f p (or_introl H) Hf)
      as [Hu|(keys & key & v & kind & _ & _ & _ & _ & _ & Hk & _)].
    + by eapply ungated_known.
    + by eapply expected_kinds_known.
  - destruct (built_lookup_inv self sch0 pd props f p (or_intror H) Hf)
      as [Hu|(keys & key & v & kind & _ & _ & _ & _ & _ & Hk & _)].
    + by eapply ungated_known.
    + by eapply expected_kinds_known.
  - eapply ungated_known, lookup_base_inv; [|exact Hf]. by left.
Qed.

Lemma mapped_keys_are_known_witness :
  WebApp._build_properties (connected sample_schema) sample_person = Ok sample_properties
  /\ sample_properties !! Key.age = Some (Select (u "1990년"))
  /\ sample_person !! Key.age = None
  /\ Key.age ∈ WebAppMain.displayed_names.
Proof.
  assert (Hl : sample_properties !! Key.age = Some (Select (u "1990년")))
    by (vm_compute; reflexivity).
  split; [exact sample_person_mapped|]. split; [exact Hl|].
  split; [vm_compute; reflexivity|].
  exact (mapped_keys_are_known (connected sample_schema) sample_schema sample_person
           sample_properties Key.age _ (or_intror sample_person_mapped) Hl).
Defined.

(** ** The résumé parser's upload *)

(** X11.  [upload_to_notion] raises nothing.  It returns [False] exactly
    for empty data, and then calls nothing; otherwise it retrieves the
    schema and, if that succeeds, makes one create-page call with the
    mapper's property set.  It returns the created page's response when
    both calls return, and [None] exactly when one of them raises: the
    mapper is never the cause of a failure. *)
Theorem upload_to_notion_outcome {W} (notion_client : Client W) (w : W)
    (data : RawRecord) (notion_db_id : pystr) :
  (data = ∅ ->
   FileToNotion.upload_to_notion notion_client w data notion_db_id
   = (w, Ok FileToNotion.ReturnFalse))
  /\ (data <> ∅ ->
      match databases_retrieve notion_client w notion_db_id with
      | (w1, Raise _) =>
        FileToNotion.upload_to_notion notion_client w data notion_db_id
        = (w1, Ok FileToNotion.ReturnNone)
      | (w1, Ok db_info) =>
        exists properties,
          FileToNotion._build_properties data db_info = Ok properties
          /\ match pages_create notion_client w1 notion_db_id properties with
             | (w2, Ok response) =>
               FileToNotion.upload_to_notion notion_client w data notion_db_id
               = (w2, Ok (FileToNotion.ReturnResponse response))
             | (w2, Raise _) =>
               FileToNotion.upload_to_notion notion_client w data notion_db_id
               = (w2, Ok FileToNotion.ReturnNone)
             end
      end).
Proof.
  unfold FileToNotion.upload_to_notion. split.
  - intros ->. by rewrite decide_True.
  - intros Hne. rewrite decide_False by done.
    destruct (databases_retrieve notion_client w notion_db_id) as [w1 [db_info|e]];
      [|done].
    exists (file_properties db_info data). rewrite file_build_normal.
    split; [done|].
    by destruct (pages_create notion_client w1 notion_db_id _) as [w2 [r|e]].
Qed.

Lemma upload_to_notion_outcome_witness :
  sample_resume <> ∅
  /\ FileToNotion.upload_to_notion (ok_client sample_schema) tt sample_resume sample_db
     = (tt, Ok (FileToNotion.ReturnResponse sample_page)).
Proof.
  assert (Hne : sample_resume <> ∅).
  { intros H. apply (f_equal (fun m : RawRecord => m !! Key.name)) in H.
    vm_compute in H. discriminate H. }
  split; [exact Hne|].
  pose proof (proj2 (upload_to_notion_outcome (ok_client sample_schema) tt
                       sample_resume sample_db) Hne) as H.
  cbn [ok_client databases_retrieve pages_create] in H.
  destruct H as (properties & _ & H). exact H.
Defined.

(** ** More on the batch loop *)

(** The loop's counters only accumulate: running it from a count and a log
    is running it from zero and the empty log, then adding. *)
Lemma upload_loop_shift {W} (uploader : WebApp.NotionUploader W) (data : list RawRecord) :
  forall (w : W) (n : nat) (log : list pystr),
  exists w' n' lines,
    WebApp.upload_loop uploader data w 0%nat [] = (w', Ok (n', lines))
    /\ WebApp.upload_loop uploader data w n log = (w', Ok ((n + n')%nat, log ++ lines))
    /\ n' = count_success lines
    /\ length lines = length data.
Proof.
  induction data as [|pd rest IH]; intros w n log.
  - exists w, 0%nat, []. cbn. by rewrite Nat.add_0_r, app_nil_r.
  - destruct (upload_person_returns uploader w pd) as (w1 & s & m & Hp).
    cbn [WebApp.upload_loop]. rewrite Hp.
    destruct s.
    + destruct (IH w1 (0 + 1)%nat ([] ++ [WebApp.mark_ok ++ m]))
        as (w' & n' & lines & H0 & -> & Hn & Hlen).
      destruct (IH w1 (n + 1)%nat (log ++ [WebApp.mark_ok ++ m]))
        as (w'' & n'' & lines' & H0' & -> & _ & _).
      rewrite H0 in H0'. injection H0' as <- <- <-.
      exists w', (1 + n')%nat, ([log_line true m] ++ lines).
      split; [done|]. split; [by rewrite <- app_assoc, Nat.add_assoc|].
      split; [|cbn; lia].
      rewrite count_success_app, count_success_line. lia.
    + destruct (IH w1 0%nat ([] ++ [WebApp.mark_fail ++ m]))
        as (w' & n' & lines & H0 & -> & Hn & Hlen).
      destruct (IH w1 n (log ++ [WebApp.mark_fail ++ m]))
        as (w'' & n'' & lines' & H0' & -> & _ & _).
      rewrite H0 in H0'. injection H0' as <- <- <-.
      exists w', n', ([log_line false m] ++ lines).
      split; [done|]. split; [by rewrite <- app_assoc|].
      split; [|cbn; lia].
      rewrite count_success_app, count_success_line. lia.
Qed.

(** X12.  Uploading a list in two parts, the second from the state the
    first left, gives the result of uploading the whole list: the same
    final state, the sum of the two counts and the two logs one after the
    other. *)
Theorem upload_list_app {W} (uploader : WebApp.NotionUploader W) (w : W)
    (l1 l2 : list RawRecord) :
  exists w1 n1 log1 w2 n2 log2,
    WebApp.upload_list uploader w l1 = (w1, Ok (n1, log1))
    /\ WebApp.upload_list uploader w1 l2 = (w2, Ok (n2, log2))
    /\ WebApp.upload_list uploader w (l1 ++ l2)
       = (w2, Ok ((n1 + n2)%nat, log1 ++ log2)).
Proof.
  unfold WebApp.upload_list.
  destruct (upload_loop_shift uploader l1 w 0%nat []) as (w1 & n1 & log1 & H1 & _).
  destruct (upload_loop_shift uploader l2 w1 n1 log1)
    as (w2 & n2 & log2 & H2 & H2' & _).
  exists w1, n1, log1, w2, n2, log2. split; [done|]. split; [done|].
  by rewrite upload_loop_app, H1.
Qed.

Lemma count_success_le (log : list pystr) : (count_success log <= length log)%nat.
Proof. unfold count_success. apply length_filter. Qed.

Lemma count_success_all (log : list pystr) :
  count_success log = length log
  <-> Forall (fun line => is_success_line line = true) log.
Proof.
  induction log as [|x log IH]; [by split|].
  change (x :: log) with ([x] ++ log) at 1.
  rewrite count_success_app. pose proof (count_success_le log) as Hle.
  unfold count_success at 1. cbn [length].
  destruct (is_success_line x) eqn:Hx.
  - rewrite filter_cons_True, filter_nil by done. cbn [length Nat.add].
    rewrite Forall_cons. split.
    + intros [= H]. split; [done|]. by apply IH.
    + intros [_ H]. f_equal. by apply IH.
  - rewrite filter_cons_False, filter_nil by (by rewrite Hx). cbn [length Nat.add].
    split; [lia|]. intros [H _]%Forall_cons. congruence.
Qed.

(** X13.  Clicking upload on a non-empty list reports one log line per
    record and a closing message; the closing message is the success
    message exactly when every line of the log is a success line, and the
    warning otherwise. *)
Theorem batch_closing_message {W} (uploader : WebApp.NotionUploader W) (w : W)
    (data : list RawRecord) :
  data <> [] ->
  exists w' n log,
    WebAppMain.upload_clicked (Some uploader) (WebAppMain.DataList data) w
    = (w', Ok (WebAppMain.BatchReport
                 (WebAppMain.final_message n (length data)) log))
    /\ n = count_success log
    /\ (n <= length data)%nat
    /\ length log = length data
    /\ ((WebAppMain.final_message n (length data)).1 = true
        <-> Forall (fun line => is_success_line line = true) log).
Proof.
  intros Hne. unfold WebAppMain.upload_clicked, WebApp.upload_list.
  cbn [WebAppMain.data_truth]. rewrite bool_decide_eq_false_2 by done. cbn [negb].
  destruct (upload_loop_shift uploader data w 0%nat [])
    as (w' & n & log & -> & _ & Hn & Hlen).
  exists w', n, log. split; [done|]. split; [done|].
  pose proof (count_success_le log) as Hle.
  split; [lia|]. split; [done|].
  rewrite <- count_success_all, <- Hn, Hlen.
  unfold WebAppMain.final_message.
  destruct (Nat.eqb_spec n (length data)); cbn [fst]; split; congruence.
Qed.

Lemma batch_closing_message_witness :
  exists n log,
    WebAppMain.upload_clicked (Some flaky_uploader)
      (WebAppMain.DataList [rec_name_only; rec_email_only; rec_name_only]) 0%nat
    = (2%nat, Ok (WebAppMain.BatchReport (WebAppMain.final_message n 3) log))
    /\ (WebAppMain.final_message n 3).1 = false.
Proof.
  destruct (batch_closing_message flaky_uploader 0%nat
              [rec_name_only; rec_email_only; rec_name_only])
    as (w' & n & log & E & _); [discriminate|].
  assert (Ev : WebAppMain.upload_clicked (Some flaky_uploader)
      (WebAppMain.DataList [rec_name_only; rec_email_only; rec_name_only]) 0%nat
    = (2%nat, Ok (WebAppMain.BatchReport (WebAppMain.final_message 1 3)
         [u "✅ 'A' 업로드 완료"; u "❌ 이름이 없는 데이터입니다.";
          u "❌ 업로드 실패: boom"]))) by (vm_compute; reflexivity).
  eexists 1%nat, _. split; [exact Ev|]. reflexivity.
Defined.

(** X14.  The upload button does nothing, and calls nothing, without an
    uploader or for falsy data such as the empty object or the empty list.
    For a non-empty object it reports the outcome of one [upload_person];
    the list holding just that object ends in the same state with the same
    outcome as its only log line.  An empty object inside a list is
    processed like any record, and fails for its missing name. *)
Theorem upload_clicked_single {W} (uploader : WebApp.NotionUploader W) (w : W)
    (d : RawRecord) (data : WebAppMain.json_data) :
  (WebAppMain.data_truth data = false ->
   WebAppMain.upload_clicked (Some uploader) data w = (w, Ok WebAppMain.NoReport))
  /\ WebAppMain.upload_clicked None data w = (w, Ok WebAppMain.NoReport)
  /\ (exists w' success message,
        WebApp.upload_person uploader w d = (w', Ok (success, message))
        /\ (d <> ∅ ->
            WebAppMain.upload_clicked (Some uploader) (WebAppMain.DataDict d) w
            = (w', Ok (WebAppMain.PersonReport success message)))
        /\ WebAppMain.upload_clicked (Some uploader) (WebAppMain.DataList [d]) w
           = (w', Ok (WebAppMain.BatchReport
                        (WebAppMain.final_message (if success then 1 else 0) 1)
                        [log_line success message]))
        /\ (d = ∅ -> success = false /\ message = WebApp.msg_no_name /\ w' = w)).
Proof.
  split; [|split; [done|]].
  - intros H. unfold WebAppMain.upload_clicked. by rewrite H.
  - destruct (upload_person_returns uploader w d) as (w' & s & m & Hp).
    exists w', s, m. split; [exact Hp|]. split; [|split].
    + intros Hne. unfold WebAppMain.upload_clicked. cbn [WebAppMain.data_truth].
      rewrite bool_decide_eq_false_2 by done. cbn [negb]. by rewrite Hp.
    + unfold WebAppMain.upload_clicked, WebApp.upload_list.
      cbn [WebAppMain.data_truth WebApp.upload_loop length].
      rewrite bool_decide_eq_false_2 by done. cbn [negb]. rewrite Hp.
      by destruct s.
    + intros ->. unfold WebApp.upload_person in Hp. cbn in Hp.
      by injection Hp as <- <- <-.
Qed.

(** ** The log area *)

(** X15.  The log area shows the last five lines of the log, or all of
    them when there are fewer: the shown lines are a suffix of the log of
    length min(5, n), and when no message holds a line break the text
    splits at the line breaks into exactly those lines. *)
Theorem log_area_shows_recent (log_messages : list pystr) :
  exists older,
    log_messages = older ++ WebAppMain.recent log_messages
    /\ length (WebAppMain.recent log_messages) = Nat.min 5 (length log_messages)
    /\ (log_messages <> [] ->
        Forall (fun line => newline ∉ line) log_messages ->
        split newline (WebAppMain.log_text log_messages)
        = WebAppMain.recent log_messages).
Proof.
  unfold WebAppMain.log_text, WebAppMain.recent.
  exists (take (length log_messages - 5) log_messages).
  split; [by rewrite take_drop|]. split; [rewrite length_drop; lia|].
  intros Hne Hfree. apply split_join.
  - intros H. apply (f_equal length) in H. rewrite length_drop in H.
    destruct log_messages; [done|]. cbn [length] in H. lia.
  - by apply Forall_drop.
Qed.

Lemma log_area_shows_recent_witness :
  split newline
    (WebAppMain.log_text [u "a"; u "b"; u "c"; u "d"; u "e"; u "f"; u "g"])
  = [u "c"; u "d"; u "e"; u "f"; u "g"].
Proof.
  destruct (log_area_shows_recent [u "a"; u "b"; u "c"; u "d"; u "e"; u "f"; u "g"])
    as (older & _ & _ & H).
  rewrite H; [reflexivity|discriminate|].
  repeat constructor; vm_compute; intros Hx;
    repeat (apply elem_of_cons in Hx as [Hx|Hx]; [discriminate Hx|]);
    by apply elem_of_nil in Hx.
Defined.

(** ** Every declared, filled field is written *)

Lemma stores_write (sch : Schema) (pd : RawRecord) (age edu : value)
    (base : PropertySet) (f kind : pystr) (v : value) :
  f ∈ schema_read_keys ->
  v = (if bool_decide (f = Key.age) then age
       else if bool_decide (f = Key.education) then edu else get pd f) ->
  truthy v = true ->
  sch !! f = Some kind ->
  kind ∈ expected_kinds f ->
  rich_text_stores sch pd edu (select_stores sch pd age base) !! f
  = Some (payload_for kind v).
Proof.
  intros Hf Hv Ht Hs Hk. unfold schema_read_keys, select_expected, free_text in Hf.
  cbn [app] in Hf. unfold rich_text_stores, select_stores. cbv zeta.
  repeat (apply elem_of_cons in Hf as [->|Hf]);
    [..|by apply elem_of_nil in Hf];
    vm_compute in Hv; subst v;
    vm_compute in Hk;
    repeat (apply elem_of_cons in Hk as [->|Hk]);
    try (by apply elem_of_nil in Hk);
    rewrite ?lookup_rich_text_store_ne by distinct_keys;
    rewrite ?lookup_select_store_ne by distinct_keys;
    first [ by apply lookup_select_store_hit
          | by apply lookup_rich_text_store_hit
          | by apply lookup_rich_text_store_choices ].
Qed.

(** X16.  Every schema-gated field that the record fills and the schema
    declares with a kind the field is written under is in the built
    property set, with the payload of that kind; the mappers skip no such
    field.  The web app reads the age and the education under either
    spelling. *)
Theorem gated_field_is_written {W} (self : WebApp.NotionUploader W) (sch : Schema)
    (pd : RawRecord) (f kind : pystr) :
  f ∈ schema_read_keys ->
  sch !! f = Some kind ->
  kind ∈ expected_kinds f ->
  (truthy (get pd f) = true ->
   exists props, FileToNotion._build_properties pd sch = Ok props
     /\ props !! f = Some (payload_for kind (get pd f)))
  /\ (truthy (app_value pd f) = true ->
      WebApp.db_info self = Some sch -> is_Some (pd !! Key.name) ->
      exists props, WebApp._build_properties self pd = Ok props
        /\ props !! f = Some (payload_for kind (app_value pd f))).
Proof.
  intros Hf Hs Hk. split.
  - intros Ht. exists (file_properties sch pd). split; [apply file_build_normal|].
    unfold file_properties.
    apply (stores_write sch pd _ _ _ f kind); try done.
    by repeat case_bool_decide; subst.
  - intros Ht Hdb [n Hn]. exists (app_properties sch pd).
    split; [by apply (app_build_normal self sch pd n)|].
    unfold app_properties. by apply (stores_write sch pd _ _ _ f kind).
Qed.

Lemma gated_field_is_written_witness :
  Key.career ∈ schema_read_keys
  /\ sample_schema !! Key.career = Some Kind.rich_text
  /\ truthy (get sample_resume Key.career) = true
  /\ exists props,
       FileToNotion._build_properties sample_resume sample_schema = Ok props
       /\ props !! Key.career = Some (RichText (u "5년 3개월")).
Proof.
  assert (Hf : Key.career ∈ schema_read_keys) by solve_elem.
  assert (Hs : sample_schema !! Key.career = Some Kind.rich_text)
    by (vm_compute; reflexivity).
  assert (Hk : Kind.rich_text ∈ expected_kinds Key.career) by solve_elem.
  assert (Ht : truthy (get sample_resume Key.career) = true)
    by (vm_compute; reflexivity).
  split; [exact Hf|]. split; [exact Hs|]. split; [exact Ht|].
  destruct (proj1 (gated_field_is_written (connected sample_schema) sample_schema
                     sample_resume Key.career Kind.rich_text Hf Hs Hk) Ht)
    as (props & Hb & Hl).
  exists props. split; [exact Hb|]. rewrite Hl. vm_compute. reflexivity.
Defined.
